(** * WinJitsu: the window placement script, embedded and checked

    A shallow embedding of [src/winjitsu/winjitsu.py].  The script asks
    [xdotool] for the geometry of the active window and [xrandr] for the
    display layout, computes a target rectangle, and walks the window to
    it in 25 animation frames followed by one exact request.

    Conventions of the embedding.
    - Python [int] is [Z], without CPython's cap on the length of a
      decimal literal.  Python [float] is an exact rational [Q]: the
      quantities the script computes ([n / 2], [(a - b) / 25] and sums of
      those) are carried without binary64 rounding error, and [round] and
      [int] are applied to the mathematical value.  Targets and zero
      deltas over window and display sizes are exact in binary64 as well;
      the position of an intermediate frame, a multiple of 1/25 or 1/50,
      is not, and a frame that is an exact tie here may be rounded to
      the other neighbour by the script.  The statements below therefore
      pin a frame to an integer within one half of its interpolant, which
      holds on either side of a tie, and give its exact value only where
      that error cannot change what [round] returns: when all deltas are
      zero, and between integral rectangles, where a frame is a multiple
      of 1/25 and so at least 1/50 away from a tie.  The overflow of
      binary64, which takes magnitudes no display or window has, is not
      modelled.
    - Text is [string] over 7-bit ASCII; the [str] methods the script
      uses are written out with Python's ASCII whitespace and line
      boundary tables, and [int] with the narrower whitespace table it
      applies to an ASCII literal.
    - The two collaborators are inputs: what [xrandr] prints and the
      window [xdotool] reports.  A run in which one of them cannot be
      started (the script prints a message and exits with status 1) is
      not modelled.  Every [subprocess.run] of [xdotool] and
      every file written to the cache directory is appended to a log, and
      the cache directory is a finite map from window id to file contents.
    - A Python exception that nothing catches ends the run: actions
      return [Raise e] together with the world as it was left. *)

From Stdlib Require Import ZArith QArith Qround Lia Lqa List Ascii String.
From Stdlib Require Import DecimalString DecimalPos DecimalZ.
From stdpp Require Import gmap.
Import ListNotations.

#[local] Open Scope string_scope.
#[local] Open Scope Z_scope.

(* ===================================================================== *)
(** ** Python text primitives (ASCII) *)
(* ===================================================================== *)

Module PyStr.

(** [c.isspace()] on ASCII: TAB, LF, VT, FF, CR, FS, GS, RS, US, SPACE. *)
Definition isspace (c : ascii) : bool :=
  let n := nat_of_ascii c in
  ((9 <=? n) && (n <=? 13) || (28 <=? n) && (n <=? 32))%nat.

(** Line boundaries of [str.splitlines] on ASCII, CR LF apart:
    LF, VT, FF, CR, FS, GS, RS. *)
Definition islinebreak (c : ascii) : bool :=
  let n := nat_of_ascii c in
  ((10 <=? n) && (n <=? 13) || (28 <=? n) && (n <=? 30))%nat.

Definition snoc (s : string) (c : ascii) : string :=
  (s ++ String c "")%string.

(** [sub in s] *)
Fixpoint contains (sub s : string) : bool :=
  String.prefix sub s ||
  match s with
  | "" => false
  | String _ s' => contains sub s'
  end.

Fixpoint lstrip (s : string) : string :=
  match s with
  | "" => ""
  | String c s' => if isspace c then lstrip s' else s
  end.

Fixpoint rstrip (s : string) : string :=
  match s with
  | "" => ""
  | String c s' =>
      match rstrip s' with
      | "" => if isspace c then "" else String c ""
      | r => String c r
      end
  end.

(** [s.strip()] *)
Definition strip (s : string) : string := rstrip (lstrip s).

(** [s.split()]: maximal runs of non-whitespace; [tok] is the run being
    read. *)
Fixpoint split_ws (tok s : string) : list string :=
  match s with
  | "" => match tok with "" => [] | _ => [tok] end
  | String c s' =>
      if isspace c
      then match tok with "" => split_ws "" s' | _ => tok :: split_ws "" s' end
      else split_ws (snoc tok c) s'
  end.

Definition split (s : string) : list string := split_ws "" s.

(** [s.split(sep)] for a one-character separator. *)
Fixpoint split_on (sep : ascii) (tok s : string) : list string :=
  match s with
  | "" => [tok]
  | String c s' =>
      if Ascii.eqb c sep then tok :: split_on sep "" s'
      else split_on sep (snoc tok c) s'
  end.

Definition split_sep (sep : ascii) (s : string) : list string :=
  split_on sep "" s.

(** [s.split(sep, 1)]: cut at the first separator only. *)
Fixpoint split_first (sep : ascii) (tok s : string) : list string :=
  match s with
  | "" => [tok]
  | String c s' =>
      if Ascii.eqb c sep then [tok; s']
      else split_first sep (snoc tok c) s'
  end.

Definition split_sep1 (sep : ascii) (s : string) : list string :=
  split_first sep "" s.

(** [s.splitlines()]: boundaries are dropped, CR LF counts once, and a
    final boundary opens no empty last line. *)
Fixpoint splitlines_from (cur s : string) : list string :=
  match s with
  | "" => match cur with "" => [] | _ => [cur] end
  | String c s' =>
      if Ascii.eqb c "013" then
        match s' with
        | String "010" s'' => cur :: splitlines_from "" s''
        | _ => cur :: splitlines_from "" s'
        end
      else if islinebreak c then cur :: splitlines_from "" s'
      else splitlines_from (snoc cur c) s'
  end.

Definition splitlines (s : string) : list string := splitlines_from "" s.

(** [for line in f] on a file opened in text mode: universal newlines
    make LF, CR and CR LF the only line ends.  The terminator is left
    out here; the one reader of these lines strips them anyway. *)
Fixpoint filelines_from (cur s : string) : list string :=
  match s with
  | "" => match cur with "" => [] | _ => [cur] end
  | String c s' =>
      if Ascii.eqb c "013" then
        match s' with
        | String "010" s'' => cur :: filelines_from "" s''
        | _ => cur :: filelines_from "" s'
        end
      else if Ascii.eqb c "010" then cur :: filelines_from "" s'
      else filelines_from (snoc cur c) s'
  end.

Definition filelines (s : string) : list string := filelines_from "" s.

(** [str(n)] for an [int]. *)
Definition str (n : Z) : string :=
  match n with
  | Z0 => "0"
  | Zpos p => NilEmpty.string_of_uint (Pos.to_uint p)
  | Zneg p => String "-" (NilEmpty.string_of_uint (Pos.to_uint p))
  end.

(** The digit part of an [int] literal: decimal digits, single
    underscores allowed between two digits.  [after_digit] tells whether
    the previous character was a digit. *)
Fixpoint digits (after_digit : bool) (s : string) : option Decimal.uint :=
  match s with
  | "" => if after_digit then Some Decimal.Nil else None
  | String c s' =>
      if Ascii.eqb c "_"
      then if after_digit then
             match digits false s' with
             | Some Decimal.Nil => None
             | r => r
             end
           else None
      else uint_of_char c (digits true s')
  end.

(** The whitespace [int] skips around an ASCII literal: TAB, LF, VT,
    FF, CR and SPACE only.  FS, GS, RS and US, which [str.strip] removes,
    make [int] raise. *)
Definition isspace_int (c : ascii) : bool :=
  let n := nat_of_ascii c in
  ((9 <=? n) && (n <=? 13) || (n =? 32))%nat.

Fixpoint lskip_int (s : string) : string :=
  match s with
  | "" => ""
  | String c s' => if isspace_int c then lskip_int s' else s
  end.

Fixpoint rskip_int (s : string) : string :=
  match s with
  | "" => ""
  | String c s' =>
      match rskip_int s' with
      | "" => if isspace_int c then "" else String c ""
      | r => String c r
      end
  end.

(** [int(s)]: surrounding whitespace, an optional sign, then digits.
    [None] is [ValueError]. *)
Definition int (s : string) : option Z :=
  match rskip_int (lskip_int s) with
  | String "-" d => option_map (fun u => - Z.of_uint u) (digits false d)
  | String "+" d => option_map Z.of_uint (digits false d)
  | d => option_map Z.of_uint (digits false d)
  end.

End PyStr.

(* ===================================================================== *)
(** ** Python numbers *)
(* ===================================================================== *)

Module PyNum.

#[local] Open Scope Q_scope.

(** [round(x)] with one argument: the nearest integer, ties to the even
    one. *)
Definition round (x : Q) : Z :=
  let f := Qfloor x in
  match Qcompare (x - inject_Z f) (1 # 2) with
  | Lt => f
  | Gt => (f + 1)%Z
  | Eq => if Z.even f then f else (f + 1)%Z
  end.

(** [int(x)]: truncation toward zero (the identity on an [int]). *)
Definition int (x : Q) : Z := Z.quot (Qnum x) (Zpos (Qden x)).

End PyNum.

(* ===================================================================== *)
(** ** The window-control collaborator and the animator *)
(* ===================================================================== *)

(** One [subprocess.run(["xdotool", ...])]. *)
Inductive request : Type :=
| windowsize (window_id w h : Z)
| windowmove (window_id x y : Z).

(** The argument vector handed to [subprocess.run]. *)
Definition argv (r : request) : list string :=
  match r with
  | windowsize i w h =>
      ["xdotool"; "windowsize"; PyStr.str i; PyStr.str w; PyStr.str h]
  | windowmove i x y =>
      ["xdotool"; "windowmove"; PyStr.str i; PyStr.str x; PyStr.str y]
  end.

Definition steps : Z := 25.

Section Animator.

#[local] Open Scope Q_scope.

Variable window_id : Z.
Variables w_step h_step x_move_step y_move_step : Q.

(** The body of [for _ in range(steps)], [n] iterations left. *)
Fixpoint move_window_loop (n : nat) (new_w new_h new_x new_y : Q)
  : list request :=
  match n with
  | O => []
  | S n' =>
      let new_w := new_w + w_step in
      let new_h := new_h + h_step in
      let new_x := new_x - x_move_step in
      let new_y := new_y - y_move_step in
      windowsize window_id (PyNum.round new_w) (PyNum.round new_h)
      :: windowmove window_id (PyNum.round new_x) (PyNum.round new_y)
      :: move_window_loop n' new_w new_h new_x new_y
  end.

End Animator.

Definition move_window
  (target_w target_h : Q) (window_id : Z)
  (current_w current_h current_x current_y target_x target_y : Q)
  : list request :=
  let w_step := ((target_w - current_w) / inject_Z steps)%Q in
  let h_step := ((target_h - current_h) / inject_Z steps)%Q in
  let x_move_step := ((current_x - target_x) / inject_Z steps)%Q in
  let y_move_step := ((current_y - target_y) / inject_Z steps)%Q in
  move_window_loop window_id w_step h_step x_move_step y_move_step
    (Z.to_nat steps) current_w current_h current_x current_y
  ++ [ windowsize window_id (PyNum.int target_w) (PyNum.int target_h);
       windowmove window_id (PyNum.int target_x) (PyNum.int target_y) ].

(** The two requests of one animation frame. *)
Definition frame_requests (window_id : Z) (f : Z * Z * Z * Z) : list request :=
  let '(w, h, x, y) := f in
  [windowsize window_id w h; windowmove window_id x y].

(* ===================================================================== *)
(** ** Exceptions, Python dicts of integers *)
(* ===================================================================== *)

Inductive exn : Type :=
| ValueError
| KeyError (key : string)
| SystemExit (code : Z).

Inductive result (A : Type) : Type :=
| Ok (a : A)
| Raise (e : exn).

Arguments Ok {A} a.
Arguments Raise {A} e.

(** A [dict] from [str] to [int], in insertion order. *)
Definition dict : Type := list (string * Z).

(** [d[k] = v]: an existing key keeps its place. *)
Fixpoint setitem (k : string) (v : Z) (d : dict) : dict :=
  match d with
  | [] => [(k, v)]
  | (k', v') :: d' =>
      if String.eqb k' k then (k', v) :: d' else (k', v') :: setitem k v d'
  end.

Fixpoint get (k : string) (d : dict) : option Z :=
  match d with
  | [] => None
  | (k', v') :: d' => if String.eqb k' k then Some v' else get k d'
  end.

(** [d[k]] *)
Definition getitem (k : string) (d : dict) : result Z :=
  match get k d with
  | Some v => Ok v
  | None => Raise (KeyError k)
  end.

(* ===================================================================== *)
(** ** Display enumerator *)
(* ===================================================================== *)

(** [{'width': w, 'height': h}] *)
Record screen_data : Type := { width : Z; height : Z }.

(** [w, h = map(int, res_str.split('x'))]: anything but two integer
    literals is a [ValueError]. *)
Definition unpack_resolution (parts : list string) : result (Z * Z) :=
  match parts with
  | [a; b] =>
      match PyStr.int a, PyStr.int b with
      | Some w, Some h => Ok (w, h)
      | _, _ => Raise ValueError
      end
  | _ => Raise ValueError
  end.

(** The loop of [get_screens] over [lines[i:]]; [lines[i+1]] is the
    head of the rest. *)
Fixpoint get_screens_loop (lines : list string)
    (primary : option screen_data) (others : list screen_data)
  : result (option screen_data * list screen_data) :=
  match lines with
  | [] => Ok (primary, others)
  | line :: rest =>
      if PyStr.contains " connected" line then
        let is_primary := PyStr.contains " primary" line in
        match rest with
        | [] => get_screens_loop rest primary others
        | next :: _ =>
            let res_line := PyStr.strip next in
            match PyStr.split res_line with
            | [] => get_screens_loop rest primary others
            | res_str :: _ =>
                if PyStr.contains "x" res_str then
                  match unpack_resolution (PyStr.split_sep "x" res_str) with
                  | Raise e => Raise e
                  | Ok (w, h) =>
                      let screen_data := {| width := w; height := h |} in
                      if is_primary
                      then get_screens_loop rest (Some screen_data) others
                      else get_screens_loop rest primary (others ++ [screen_data])
                  end
                else get_screens_loop rest primary others
            end
        end
      else get_screens_loop rest primary others
  end.

(** [get_screens()], from what [xrandr] printed. *)
Definition get_screens (output : string)
  : result (option screen_data * list screen_data) :=
  get_screens_loop (PyStr.splitlines output) None [].

(* ===================================================================== *)
(** ** The world of one run *)
(* ===================================================================== *)

(** The active window as the X server has it. *)
Record window : Type := {
  WINDOW : Z; X : Z; Y : Z; WIDTH : Z; HEIGHT : Z; SCREEN : Z
}.

Definition newline : string := String "010" "".

(** One [KEY=VALUE] line, as [save_pid] writes it with
    [f.write(f"{k}={v}\n")]. *)
Definition kv_line (kv : string * Z) : string :=
  (fst kv ++ "=" ++ PyStr.str (snd kv) ++ newline)%string.

(** The file after one [f.write] per item. *)
Definition kv_text (d : dict) : string :=
  fold_right (fun kv text => (kv_line kv ++ text)%string) "" d.

(** The six values [xdotool getwindowgeometry --shell] reports for a
    window, under its names and in its order. *)
Definition window_dict (w : window) : dict :=
  [ ("WINDOW", WINDOW w); ("X", X w); ("Y", Y w);
    ("WIDTH", WIDTH w); ("HEIGHT", HEIGHT w); ("SCREEN", SCREEN w) ].

(** What [xdotool getwindowgeometry --shell] prints for a window: one
    [KEY=VALUE] line each. *)
Definition shell_geometry (w : window) : string := kv_text (window_dict w).

(** What the collaborators answer during one run of the script. *)
Record env : Type := {
  xrandr_output : string;
  active_window : window
}.

(** What a run leaves behind, in order: a cache file written, an
    [xdotool] request run. *)
Inductive event : Type :=
| written (window_id : Z) (text : string)
| ran (r : request).

(** What the script changes: the files of [CACHE_DIR], by window id
    ([f"{window_id}.pid"]), and the log of its effects so far. *)
Record world : Type := {
  cache : gmap Z string;
  log : list event
}.

Definition M (A : Type) : Type := env -> world -> result A * world.

Definition ret {A} (a : A) : M A := fun _ s => (Ok a, s).

Definition bind {A B} (m : M A) (k : A -> M B) : M B :=
  fun e s =>
    match m e s with
    | (Ok a, s') => k a e s'
    | (Raise x, s') => (Raise x, s')
    end.

Definition lift {A} (r : result A) : M A := fun _ s => (r, s).

Notation "'let*' x ':=' m 'in' k" := (bind m (fun x => k))
  (at level 10, x pattern, m at level 100, k at level 200).

(** [subprocess.run] of each request in turn. *)
Definition run_all (rs : list request) : M unit :=
  fun _ s => (Ok tt, {| cache := cache s; log := log s ++ map ran rs |}).

(* ===================================================================== *)
(** ** Window query and geometry cache *)
(* ===================================================================== *)

(** The loop of [get_window_position] over the lines printed. *)
Fixpoint parse_geometry (lines : list string) (data : dict) : result dict :=
  match lines with
  | [] => Ok data
  | line :: rest =>
      match PyStr.split_sep1 "=" line with
      | [key; value] =>
          match PyStr.int value with
          | Some v => parse_geometry rest (setitem key v data)
          | None => Raise ValueError
          end
      | _ => Raise ValueError
      end
  end.

Definition get_window_position : M dict :=
  fun e s =>
    (parse_geometry
       (PyStr.splitlines (shell_geometry (active_window e))) [], s).

Definition save_pid (window_id : Z) (data : dict) : M unit :=
  fun _ s =>
    (Ok tt, {| cache := <[window_id := kv_text data]> (cache s);
               log := log s ++ [written window_id (kv_text data)] |}).

(** The loop of [load_pid] over the lines of the file. *)
Fixpoint load_pid_loop (lines : list string) (data : dict) : result dict :=
  match lines with
  | [] => Ok data
  | line :: rest =>
      if PyStr.contains "=" line then
        match PyStr.split_sep1 "=" (PyStr.strip line) with
        | [k; v] =>
            match PyStr.int v with
            | Some n => load_pid_loop rest (setitem k n data)
            | None => Raise ValueError
            end
        | _ => Raise ValueError
        end
      else load_pid_loop rest data
  end.

(** [load_pid]: [None] when the file does not exist. *)
Definition load_pid (window_id : Z) : M (option dict) :=
  fun _ s =>
    match cache s !! window_id with
    | Some text =>
        match load_pid_loop (PyStr.filelines text) [] with
        | Ok data => (Ok (Some data), s)
        | Raise x => (Raise x, s)
        end
    | None => (Ok None, s)
    end.

Definition clear_cache : M unit :=
  fun _ s => (Ok tt, {| cache := ∅; log := log s |}).

(* ===================================================================== *)
(** ** Placement planner *)
(* ===================================================================== *)

(** The choice made by [get_screen_for_window] once [get_screens] has
    answered. *)
Definition screen_for_window
    (screens : option screen_data * list screen_data) (x_pos : Z)
  : Z * Z * Z :=
  let '(primary, others) := screens in
  match primary with
  | None => (1920, 1080, 0)
  | Some primary =>
      let primary_width := width primary in
      if primary_width - 1 <? x_pos then
        match others with
        | other :: _ => (width other, height other, primary_width)
        | [] => (primary_width, height primary, 0)
        end
      else (primary_width, height primary, 0)
  end.

Definition get_screen_for_window (x_pos : Z) : M (Z * Z * Z) :=
  fun e s =>
    match get_screens (xrandr_output e) with
    | Ok screens => (Ok (screen_for_window screens x_pos), s)
    | Raise x => (Raise x, s)
    end.

Definition get_primary_width : M Z :=
  fun e s =>
    match get_screens (xrandr_output e) with
    | Ok (Some primary, _) => (Ok (width primary), s)
    | Ok (None, _) => (Ok 1920, s)
    | Raise x => (Raise x, s)
    end.

Definition fullscreen : M unit :=
  let* win := get_window_position in
  let* window_id := lift (getitem "WINDOW" win) in
  let* _ := save_pid window_id win in
  let* x := lift (getitem "X" win) in
  let* screen := get_screen_for_window x in
  let '(screen_w, screen_h, base_x_offset) := screen in
  let x_offset := if 0 <? base_x_offset then base_x_offset + 5 else 5 in
  let y_offset := 5 in
  let target_w := screen_w - 10 in
  let target_h := screen_h - 10 in
  let* window_id := lift (getitem "WINDOW" win) in
  let* w := lift (getitem "WIDTH" win) in
  let* h := lift (getitem "HEIGHT" win) in
  let* x := lift (getitem "X" win) in
  let* y := lift (getitem "Y" win) in
  run_all (move_window (inject_Z target_w) (inject_Z target_h) window_id
             (inject_Z w) (inject_Z h) (inject_Z x) (inject_Z y)
             (inject_Z x_offset) (inject_Z y_offset)).

Definition unscreen : M unit :=
  let* win := get_window_position in
  let* x := lift (getitem "X" win) in
  let* screen := get_screen_for_window x in
  let '(screen_w, screen_h, base_x_offset) := screen in
  let x_offset := if 0 <? base_x_offset then base_x_offset else 5 in
  let y_offset := 5 in
  let* window_id := lift (getitem "WINDOW" win) in
  let* saved := load_pid window_id in
  match saved with
  | Some ((_ :: _) as saved) => (* [if saved:] neither [None] nor [{}] *)
      let* target_w := lift (getitem "WIDTH" saved) in
      let* target_h := lift (getitem "HEIGHT" saved) in
      let* target_x := lift (getitem "X" saved) in
      let* target_y := lift (getitem "Y" saved) in
      let* w := lift (getitem "WIDTH" win) in
      let start_w := w - 10 in
      let* h := lift (getitem "HEIGHT" win) in
      let start_h := h - 10 in
      let* window_id := lift (getitem "WINDOW" win) in
      run_all (move_window (inject_Z target_w) (inject_Z target_h) window_id
                 (inject_Z start_w) (inject_Z start_h)
                 (inject_Z x_offset) (inject_Z y_offset)
                 (inject_Z target_x) (inject_Z target_y))
  | _ => ret tt
  end.

Definition toggle_fullscreen : M unit :=
  let* win := get_window_position in
  let* x := lift (getitem "X" win) in
  let* screen := get_screen_for_window x in
  let '(screen_w, _, _) := screen in
  let* w := lift (getitem "WIDTH" win) in
  if w =? screen_w - 10 then unscreen else fullscreen.

(** The [if]/[elif] chain of [direction]: the target rectangle
    [(target_w, target_h, target_x, target_y)]. *)
Definition direction_target (direction_code : string)
    (win_width win_height screen_w screen_h base_x_offset : Z)
  : Q * Q * Q * Q :=
  let half_w := (inject_Z screen_w / 2)%Q in
  let half_h := (inject_Z screen_h / 2)%Q in
  let target_w := inject_Z win_width in
  let target_h := inject_Z win_height in
  let target_x := 0%Q in
  let target_y := 0%Q in
  if String.eqb direction_code "N" then
    (inject_Z screen_w, half_h, inject_Z base_x_offset, 0%Q)
  else if String.eqb direction_code "S" then
    (inject_Z screen_w, half_h, inject_Z base_x_offset, half_h)
  else if String.eqb direction_code "E" then
    (half_w, inject_Z screen_h, (inject_Z base_x_offset + half_w)%Q, 0%Q)
  else if String.eqb direction_code "W" then
    (half_w, inject_Z screen_h, inject_Z base_x_offset, 0%Q)
  else if String.eqb direction_code "NE" then
    (half_w, half_h, (inject_Z base_x_offset + half_w)%Q, 0%Q)
  else if String.eqb direction_code "NW" then
    (half_w, half_h, inject_Z base_x_offset, 0%Q)
  else if String.eqb direction_code "SE" then
    (half_w, half_h, (inject_Z base_x_offset + half_w)%Q, half_h)
  else if String.eqb direction_code "SW" then
    (half_w, half_h, inject_Z base_x_offset, half_h)
  else if String.eqb direction_code "C" then
    (inject_Z win_width, inject_Z win_height,
     (inject_Z (screen_w - win_width) / 2 + inject_Z base_x_offset)%Q,
     (inject_Z (screen_h - win_height) / 2)%Q)
  else (target_w, target_h, target_x, target_y).

Definition direction (direction_code : string) : M unit :=
  let* win := get_window_position in
  let* x := lift (getitem "X" win) in
  let* screen := get_screen_for_window x in
  let '(screen_w, screen_h, base_x_offset) := screen in
  let* w := lift (getitem "WIDTH" win) in
  let* h := lift (getitem "HEIGHT" win) in
  let '(target_w, target_h, target_x, target_y) :=
    direction_target direction_code w h screen_w screen_h base_x_offset in
  let* window_id := lift (getitem "WINDOW" win) in
  let* x := lift (getitem "X" win) in
  let* y := lift (getitem "Y" win) in
  run_all (move_window target_w target_h window_id
             (inject_Z w) (inject_Z h) (inject_Z x) (inject_Z y)
             target_x target_y).

Definition toggle_display : M unit :=
  let* win := get_window_position in
  fun e s =>
    match get_screens (xrandr_output e) with
    | Raise x => (Raise x, s)
    | Ok (None, _) => (Ok tt, s)
    | Ok (Some primary, _) =>
        let primary_width := width primary in
        (let* x := lift (getitem "X" win) in
         let shift := if primary_width - 1 <? x then - primary_width
                      else primary_width in
         let target_x := x + shift in
         let* w := lift (getitem "WIDTH" win) in
         let* h := lift (getitem "HEIGHT" win) in
         let* window_id := lift (getitem "WINDOW" win) in
         let* y := lift (getitem "Y" win) in
         run_all (move_window (inject_Z w) (inject_Z h) window_id
                    (inject_Z w) (inject_Z h) (inject_Z x) (inject_Z y)
                    (inject_Z target_x) (inject_Z y))) e s
    end.

Definition direction_codes : list string :=
  ["N"; "S"; "E"; "W"; "NE"; "NW"; "SE"; "SW"; "C"].

Definition is_direction (action : string) : bool :=
  existsb (String.eqb action) direction_codes.

(** [main], from the action token on; a token outside [choices] makes
    [argparse] exit with status 2. *)
Definition main (action : string) : M unit :=
  if is_direction action then direction action
  else if String.eqb action "F" then fullscreen
  else if String.eqb action "U" then unscreen
  else if String.eqb action "TF" then toggle_fullscreen
  else if String.eqb action "TD" then toggle_display
  else if String.eqb action "CC" then clear_cache
  else lift (Raise (SystemExit 2)).


(* ===================================================================== *)
(** ** Vocabulary of the statements *)
(* ===================================================================== *)

(** No whitespace (hence no line boundary) in [s]. *)
Fixpoint nospace (s : string) : bool :=
  match s with
  | "" => true
  | String c s' => negb (PyStr.isspace c) && nospace s'
  end.

(** No ["="] in [s]. *)
Fixpoint noeq (s : string) : bool :=
  match s with
  | "" => true
  | String c s' => negb (Ascii.eqb c "=") && noeq s'
  end.

(** Keys that survive a trip through a [KEY=VALUE] file: pairwise
    distinct, without whitespace and without ["="]. *)
Fixpoint clean_keys (d : dict) : bool :=
  match d with
  | [] => true
  | (k, _) :: d' =>
      nospace k && noeq k
      && negb (existsb (String.eqb k) (map fst d'))
      && clean_keys d'
  end.

(** The world after [rs] were issued. *)
Definition issue (rs : list request) (s : world) : world :=
  {| cache := cache s; log := log s ++ map ran rs |}.

(** The world after [data] was saved for [window_id]. *)
Definition saved (window_id : Z) (data : dict) (s : world) : world :=
  {| cache := <[window_id := kv_text data]> (cache s);
     log := log s ++ [written window_id (kv_text data)] |}.

(** Frame [k] of the animation, in closed form: [k] steps from the
    current rectangle toward the target, each coordinate rounded. *)
Definition frame_at (target_w target_h current_w current_h
                     current_x current_y target_x target_y : Q) (k : Z)
  : Z * Z * Z * Z :=
  ( PyNum.round (current_w + inject_Z k * ((target_w - current_w) / inject_Z steps)),
    PyNum.round (current_h + inject_Z k * ((target_h - current_h) / inject_Z steps)),
    PyNum.round (current_x - inject_Z k * ((current_x - target_x) / inject_Z steps)),
    PyNum.round (current_y - inject_Z k * ((current_y - target_y) / inject_Z steps)) )%Q.

(** Frames [first], [first + 1], ..., [n] of them. *)
Definition frames_from (first n : nat)
    (target_w target_h current_w current_h
     current_x current_y target_x target_y : Q)
  : list (Z * Z * Z * Z) :=
  map (fun k => frame_at target_w target_h current_w current_h
                  current_x current_y target_x target_y (Z.of_nat k))
      (seq first n).

(** Integer [n] is within one half of [v]: [n] is [v] rounded, to
    either side at a tie. *)
Definition near (v : Q) (n : Z) : Prop :=
  (v - (1 # 2) <= inject_Z n <= v + (1 # 2))%Q.

(** [k] of the 25 steps from [current] toward [target]. *)
Definition interpolant (current target : Q) (k : nat) : Q :=
  (current + inject_Z (Z.of_nat k) * ((target - current) / inject_Z steps))%Q.

(** Frame [f] is step [k] from rectangle [current] toward rectangle
    [target], both given as (width, height, x, y), each coordinate
    rounded to a nearest integer. *)
Definition frame_near (current target : Q * Q * Q * Q) (k : nat)
    (f : Z * Z * Z * Z) : Prop :=
  let '(cw, ch, cx, cy) := current in
  let '(tw, th, tx, ty) := target in
  let '(w, h, x, y) := f in
  near (interpolant cw tw k) w /\ near (interpolant ch th k) h /\
  near (interpolant cx tx k) x /\ near (interpolant cy ty k) y.

(** [requests] animate window [window_id] from [current] to [target]:
    25 frames, the [k]-th a resize and a move at step [k] of the
    interpolation, then one resize and one move at rectangle [final]. *)
Definition animates (window_id : Z) (current target : Q * Q * Q * Q)
    (final : Z * Z * Z * Z) (requests : list request) : Prop :=
  exists frames : list (Z * Z * Z * Z),
    length frames = 25%nat /\
    Forall2 (frame_near current target) (seq 1 25) frames /\
    requests
    = (flat_map (frame_requests window_id) frames
       ++ frame_requests window_id final)%list.

(** An integral rectangle (width, height, x, y) as Python numbers. *)
Definition rectangle (w h x y : Z) : Q * Q * Q * Q :=
  (inject_Z w, inject_Z h, inject_Z x, inject_Z y).

(** *** Inputs the statements are tried on *)

Definition unlines (ls : list string) : string :=
  fold_right (fun l text => (l ++ newline ++ text)%string) "" ls.

(** A laptop panel, primary, and a monitor to its right. *)
Definition xrandr_dual : string := unlines
  [ "Screen 0: minimum 320 x 200, current 3200 x 1080, maximum 16384 x 16384";
    "eDP-1 connected primary 1920x1080+0+0 (normal left inverted right x axis y axis) 344mm x 194mm";
    "   1920x1080     60.00*+  59.93";
    "   1680x1050     59.95";
    "HDMI-1 connected 1280x1024+1920+0 (normal left inverted right x axis y axis) 376mm x 301mm";
    "   1280x1024     60.02*+  75.02";
    "DP-1 disconnected (normal left inverted right x axis y axis)" ].

(** One display, primary, 1920 by 1080. *)
Definition xrandr_single : string := unlines
  [ "Screen 0: minimum 320 x 200, current 1920 x 1080, maximum 16384 x 16384";
    "eDP-1 connected primary 1920x1080+0+0 (normal left inverted right x axis y axis) 344mm x 194mm";
    "   1920x1080     60.00*+  59.93" ].

(** One display that no line marks primary. *)
Definition xrandr_no_primary : string := unlines
  [ "Screen 0: minimum 320 x 200, current 1280 x 1024, maximum 16384 x 16384";
    "HDMI-1 connected 1280x1024+0+0 (normal left inverted right x axis y axis) 376mm x 301mm";
    "   1280x1024     60.02*+  75.02" ].

(** A television whose first listed mode is interlaced. *)
Definition xrandr_interlaced : string := unlines
  [ "Screen 0: minimum 320 x 200, current 1920 x 1080, maximum 16384 x 16384";
    "HDMI-1 connected primary 1920x1080+0+0 (normal left inverted right x axis y axis) 1600mm x 900mm";
    "   1920x1080i    60.00*+  50.00    59.94";
    "   1280x720      60.00    50.00    59.94" ].

Definition window_123 : window :=
  {| WINDOW := 123; X := 2000; Y := 0; WIDTH := 800; HEIGHT := 600;
     SCREEN := 0 |}.

Definition window_77 : window :=
  {| WINDOW := 77; X := 100; Y := 40; WIDTH := 800; HEIGHT := 600;
     SCREEN := 0 |}.

(** Window 123 again, as it may look once maximised on the monitor. *)
Definition window_123_maximised : window :=
  {| WINDOW := 123; X := 1925; Y := 5; WIDTH := 1270; HEIGHT := 1014;
     SCREEN := 0 |}.

Definition world0 : world := {| cache := ∅; log := [] |}.

Definition display_1920 : screen_data := {| width := 1920; height := 1080 |}.
Definition display_1280 : screen_data := {| width := 1280; height := 1024 |}.

(** *** Vocabulary of the further properties *)

(** Character [c] does not occur in [s]. *)
Fixpoint nochar (c : ascii) (s : string) : bool :=
  match s with
  | "" => true
  | String a s' => negb (Ascii.eqb a c) && nochar c s'
  end.

(** No line boundary of [str.splitlines] in [s]. *)
Fixpoint noline (s : string) : bool :=
  match s with
  | "" => true
  | String c s' => negb (PyStr.islinebreak c) && noline s'
  end.

(** [v] lies between [a] and [b], whichever is the smaller. *)
Definition between (a b v : Z) : Prop := Z.min a b <= v <= Z.max a b.

(** A request that stays within the span from the current rectangle to
    the target rectangle, coordinate by coordinate. *)
Definition request_between (cw ch cx cy tw th tx ty : Z) (r : request) : Prop :=
  match r with
  | windowsize _ w h => between cw tw w /\ between ch th h
  | windowmove _ x y => between cx tx x /\ between cy ty y
  end.

(** A run from world [s] that left the cache alone, added nothing but
    requests to the log, and added none if it raised. *)
Definition only_requests (s : world) (run : result unit * world) : Prop :=
  cache (snd run) = cache s /\
  exists rs : list request,
    log (snd run) = (log s ++ map ran rs)%list /\
    forall x, fst run = Raise x -> rs = [].

(** What [xrandr] lists, line by line: a connected display followed by
    its first mode line, a connected display without a usable mode line
    after it, or any other line. *)
Inductive listing_item : Type :=
| display_block (header mode : string) (w h : Z)
| bare_display (header : string)
| other_line (line : string).

Definition item_lines (item : listing_item) : list string :=
  match item with
  | display_block header mode _ _ => [header; mode]
  | bare_display header => [header]
  | other_line line => [line]
  end.

Definition listing_lines (items : list listing_item) : list string :=
  flat_map item_lines items.

(** The first token of a line lacks an ["x"], or the line is blank. *)
Definition no_resolution (line : string) : bool :=
  match PyStr.split (PyStr.strip line) with
  | [] => true
  | res_str :: _ => negb (PyStr.contains "x" res_str)
  end.

(** The first token of [mode] is [w], an ["x"], [h] in decimal. *)
Definition shows_resolution (mode : string) (w h : Z) : bool :=
  match PyStr.split (PyStr.strip mode) with
  | [] => false
  | res_str :: _ =>
      String.eqb res_str (PyStr.str w ++ "x" ++ PyStr.str h)%string
  end.

(** The first token of a line holds an ["x"] without being two integer
    literals around it. *)
Definition malformed_resolution (line : string) : bool :=
  match PyStr.split (PyStr.strip line) with
  | [] => false
  | res_str :: _ =>
      PyStr.contains "x" res_str
      && match unpack_resolution (PyStr.split_sep "x" res_str) with
         | Ok _ => false
         | Raise _ => true
         end
  end.

(** A listing in which every block is what it is said to be: headers
    carry the connected marker, mode lines and other lines do not, a mode
    line opens with its resolution, and the line after a bare display,
    if any, opens with no resolution. *)
Fixpoint well_formed (items : list listing_item) : bool :=
  match items with
  | [] => true
  | display_block header mode w h :: rest =>
      PyStr.contains " connected" header
      && negb (PyStr.contains " connected" mode)
      && shows_resolution mode w h
      && well_formed rest
  | bare_display header :: rest =>
      PyStr.contains " connected" header
      && match listing_lines rest with
         | [] => true
         | next :: _ => no_resolution next
         end
      && well_formed rest
  | other_line line :: rest =>
      negb (PyStr.contains " connected" line) && well_formed rest
  end.

(** The sizes of the blocks not marked primary, in the order listed. *)
Fixpoint listed_others (items : list listing_item) : list screen_data :=
  match items with
  | [] => []
  | display_block header _ w h :: rest =>
      if PyStr.contains " primary" header then listed_others rest
      else {| width := w; height := h |} :: listed_others rest
  | _ :: rest => listed_others rest
  end.

(** The size of the last block marked primary, [primary] if there is
    none. *)
Fixpoint listed_primary (items : list listing_item)
    (primary : option screen_data) : option screen_data :=
  match items with
  | [] => primary
  | display_block header _ w h :: rest =>
      if PyStr.contains " primary" header
      then listed_primary rest (Some {| width := w; height := h |})
      else listed_primary rest primary
  | _ :: rest => listed_primary rest primary
  end.

(** The rectangle of the final request of a directional action, in
    whole pixels. *)
Definition direction_final (direction_code : string)
    (win_width win_height screen_w screen_h base_x_offset : Z)
  : Z * Z * Z * Z :=
  let '(target_w, target_h, target_x, target_y) :=
    direction_target direction_code win_width win_height
      screen_w screen_h base_x_offset in
  (PyNum.int target_w, PyNum.int target_h,
   PyNum.int target_x, PyNum.int target_y).

(** The window as the requests of fullscreen leave it, if the window
    manager obeys them. *)
Definition maximised (w : window) (screen : Z * Z * Z) : window :=
  let '(screen_w, screen_h, base_x_offset) := screen in
  {| WINDOW := WINDOW w;
     X := if 0 <? base_x_offset then base_x_offset + 5 else 5;
     Y := 5;
     WIDTH := screen_w - 10;
     HEIGHT := screen_h - 10;
     SCREEN := SCREEN w |}.

(** The window after a move to [x], if the window manager obeys it. *)
Definition moved_to (w : window) (x : Z) : window :=
  {| WINDOW := WINDOW w; X := x; Y := Y w;
     WIDTH := WIDTH w; HEIGHT := HEIGHT w; SCREEN := SCREEN w |}.

(** A listing with a display that has no mode line, and a comment. *)
Definition listing_example : list listing_item :=
  [ other_line "Screen 0: minimum 320 x 200, current 3200 x 1080, maximum 16384 x 16384";
    display_block
      "eDP-1 connected primary 1920x1080+0+0 (normal left inverted right x axis y axis) 344mm x 194mm"
      "   1920x1080     60.00*+  59.93" 1920 1080;
    other_line "   1680x1050     59.95";
    bare_display "DP-2 connected (normal left inverted right x axis y axis)";
    display_block
      "HDMI-1 connected 1280x1024+1920+0 (normal left inverted right x axis y axis) 376mm x 301mm"
      "   1280x1024     60.02*+  75.02" 1280 1024;
    other_line "DP-1 disconnected (normal left inverted right x axis y axis)" ].

(* ===================================================================== *)
(** ** Text lemmas: what is printed is read back *)
(* ===================================================================== *)

Module TextFacts.
Import PyStr.

#[local] Arguments String.append !_ _ / : simpl nomatch.

Lemma append_snoc cur c s : (snoc cur c ++ s = cur ++ String c s)%string.
Proof.
  unfold snoc. induction cur as [|a cur IH]; simpl; [reflexivity|].
  f_equal. exact IH.
Qed.

Lemma append_empty_r s : (s ++ "" = s)%string.
Proof. induction s as [|a s IH]; simpl; [reflexivity|]. f_equal. exact IH. Qed.

Lemma append_assoc a b c : ((a ++ b) ++ c = a ++ b ++ c)%string.
Proof. induction a as [|x a IH]; simpl; [reflexivity|]. f_equal. exact IH. Qed.

Lemma nospace_app a b : nospace (a ++ b) = nospace a && nospace b.
Proof. induction a as [|c a IH]; simpl; [reflexivity|]. rewrite IH. now rewrite andb_assoc. Qed.

Lemma isspace_linebreak c : isspace c = false -> islinebreak c = false.
Proof.
  destruct c as [[|] [|] [|] [|] [|] [|] [|] [|]];
    vm_compute; intros H; first [reflexivity | discriminate H].
Qed.

Lemma isspace_cr c : isspace c = false -> Ascii.eqb c "013" = false.
Proof.
  intros H. destruct (Ascii.eqb_spec c "013") as [->|]; [discriminate H | reflexivity].
Qed.

Lemma isspace_lf c : isspace c = false -> Ascii.eqb c "010" = false.
Proof.
  intros H. destruct (Ascii.eqb_spec c "010") as [->|]; [discriminate H | reflexivity].
Qed.

Lemma splitlines_from_line s : forall cur rest,
  nospace s = true ->
  splitlines_from cur (s ++ String "010" rest) =
  (cur ++ s)%string :: splitlines_from "" rest.
Proof.
  induction s as [|c s IH]; intros cur rest H; simpl in *.
  - now rewrite append_empty_r.
  - apply andb_prop in H as [Hc Hs]. apply negb_true_iff in Hc.
    rewrite (isspace_cr _ Hc), (isspace_linebreak _ Hc).
    rewrite IH by assumption. now rewrite append_snoc.
Qed.

Lemma filelines_from_line s : forall cur rest,
  nospace s = true ->
  filelines_from cur (s ++ String "010" rest) =
  (cur ++ s)%string :: filelines_from "" rest.
Proof.
  induction s as [|c s IH]; intros cur rest H; simpl in *.
  - now rewrite append_empty_r.
  - apply andb_prop in H as [Hc Hs]. apply negb_true_iff in Hc.
    rewrite (isspace_cr _ Hc), (isspace_lf _ Hc).
    rewrite IH by assumption. now rewrite append_snoc.
Qed.

Lemma split_first_key k : forall tok rest,
  noeq k = true ->
  split_first "=" tok (k ++ String "=" rest) = [(tok ++ k)%string; rest].
Proof.
  induction k as [|c k IH]; intros tok rest H; simpl in *.
  - now rewrite append_empty_r.
  - apply andb_prop in H as [Hc Hk]. apply negb_true_iff in Hc.
    rewrite Hc, IH by assumption. now rewrite append_snoc.
Qed.

Lemma contains_eq_sign k rest : contains "=" (k ++ String "=" rest) = true.
Proof.
  induction k as [|c k IH]; simpl.
  - destruct rest; reflexivity.
  - rewrite IH. apply orb_true_r.
Qed.

Lemma rstrip_nospace s : nospace s = true -> rstrip s = s.
Proof.
  induction s as [|c s IH]; simpl; [reflexivity|].
  intros H. apply andb_prop in H as [Hc Hs]. apply negb_true_iff in Hc.
  rewrite IH by assumption. destruct s; [now rewrite Hc | reflexivity].
Qed.

Lemma lstrip_nospace s : nospace s = true -> lstrip s = s.
Proof.
  destruct s as [|c s]; simpl; [reflexivity|].
  intros H. apply andb_prop in H as [Hc _]. apply negb_true_iff in Hc.
  now rewrite Hc.
Qed.

Lemma isspace_int_isspace c : isspace c = false -> isspace_int c = false.
Proof.
  destruct c as [[|] [|] [|] [|] [|] [|] [|] [|]];
    vm_compute; intros H; first [reflexivity | discriminate H].
Qed.

Lemma rskip_int_nospace s : nospace s = true -> rskip_int s = s.
Proof.
  induction s as [|c s IH]; simpl; [reflexivity|].
  intros H. apply andb_prop in H as [Hc Hs]. apply negb_true_iff in Hc.
  rewrite IH by assumption.
  destruct s; [now rewrite (isspace_int_isspace _ Hc) | reflexivity].
Qed.

Lemma lskip_int_nospace s : nospace s = true -> lskip_int s = s.
Proof.
  destruct s as [|c s]; simpl; [reflexivity|].
  intros H. apply andb_prop in H as [Hc _]. apply negb_true_iff in Hc.
  now rewrite (isspace_int_isspace _ Hc).
Qed.

Lemma skip_int_nospace s : nospace s = true -> rskip_int (lskip_int s) = s.
Proof.
  intros H. rewrite lskip_int_nospace by assumption.
  now apply rskip_int_nospace.
Qed.

Lemma strip_nospace s : nospace s = true -> strip s = s.
Proof.
  intros H. unfold strip. rewrite lstrip_nospace by assumption.
  now apply rstrip_nospace.
Qed.

Lemma nospace_string_of_uint d : nospace (NilEmpty.string_of_uint d) = true.
Proof. induction d; simpl; auto. Qed.

Lemma nospace_str v : nospace (str v) = true.
Proof. destruct v; simpl; auto using nospace_string_of_uint. Qed.

Lemma digits_string_of_uint d : forall b,
  d <> Decimal.Nil \/ b = true ->
  digits b (NilEmpty.string_of_uint d) = Some d.
Proof.
  induction d; intros b Hb; simpl;
    try (rewrite IHd by (right; reflexivity); reflexivity).
  destruct Hb as [Hb | ->]; [contradiction | reflexivity].
Qed.

Lemma of_uint_to_uint p : Z.of_uint (Pos.to_uint p) = Zpos p.
Proof. unfold Z.of_uint. now rewrite DecimalPos.Unsigned.of_to. Qed.

(** [int(str(v)) == v] *)
Lemma int_str v : int (str v) = Some v.
Proof.
  unfold int. rewrite skip_int_nospace by apply nospace_str.
  destruct v as [|p|p]; simpl; [reflexivity | |].
  - pose proof (DecimalPos.Unsigned.to_uint_nonnil p) as Hn.
    pose proof (of_uint_to_uint p) as Hz.
    pose proof (digits_string_of_uint (Pos.to_uint p) false (or_introl Hn)) as Hd.
    destruct (Pos.to_uint p) eqn:E; [contradiction | ..];
      simpl in *; rewrite Hd; simpl; now rewrite Hz.
  - rewrite digits_string_of_uint
      by (left; apply DecimalPos.Unsigned.to_uint_nonnil).
    simpl. now rewrite of_uint_to_uint.
Qed.

Lemma get_app_fresh k v d : get k d = None -> setitem k v d = (d ++ [(k, v)])%list.
Proof.
  induction d as [|[k' v'] d IH]; simpl; [reflexivity|].
  destruct (String.eqb k' k); [discriminate|].
  intros H. now rewrite IH.
Qed.

Lemma clean_keys_fresh d1 : forall k v d2,
  clean_keys (d1 ++ (k, v) :: d2)%list = true -> get k d1 = None.
Proof.
  induction d1 as [|[k' v'] d1 IH]; intros k v d2 H; simpl in *; [reflexivity|].
  apply andb_prop in H as [H Hrest]. apply andb_prop in H as [_ Hfresh].
  apply negb_true_iff in Hfresh.
  destruct (String.eqb k' k) eqn:E.
  - exfalso. rewrite map_app, existsb_app in Hfresh. simpl in Hfresh.
    rewrite E in Hfresh. rewrite orb_true_r in Hfresh. discriminate.
  - eapply IH; eassumption.
Qed.

Lemma clean_keys_head d1 : forall k v d2,
  clean_keys (d1 ++ (k, v) :: d2)%list = true ->
  nospace k = true /\ noeq k = true.
Proof.
  induction d1 as [|[k' v'] d1 IH]; intros k v d2 H; simpl in H.
  - apply andb_prop in H as [H _]. apply andb_prop in H as [H _].
    now apply andb_prop in H.
  - apply andb_prop in H as [_ H]. eapply IH; eassumption.
Qed.

Lemma kv_line_shape k v rest :
  (kv_line (k, v) ++ rest = (k ++ String "=" (str v)) ++ String "010" rest)%string.
Proof.
  unfold kv_line, newline. simpl fst; simpl snd.
  rewrite !append_assoc. reflexivity.
Qed.

Lemma nospace_line k v :
  nospace k = true -> nospace (k ++ String "=" (str v)) = true.
Proof.
  intros H. rewrite nospace_app, H. simpl. apply nospace_str.
Qed.

(** Reading back what [xdotool] printed, from any dict read so far. *)
Lemma parse_geometry_kv_text d2 : forall d1,
  clean_keys (d1 ++ d2)%list = true ->
  parse_geometry (splitlines_from "" (kv_text d2)) d1 = Ok (d1 ++ d2)%list.
Proof.
  induction d2 as [|[k v] d2 IH]; intros d1 H; simpl.
  - now rewrite app_nil_r.
  - destruct (clean_keys_head _ _ _ _ H) as [Hs He].
    rewrite kv_line_shape, splitlines_from_line by now apply nospace_line.
    simpl. unfold split_sep1. rewrite split_first_key by assumption.
    simpl. rewrite int_str.
    rewrite get_app_fresh by (eapply clean_keys_fresh; eassumption).
    rewrite IH; rewrite <- app_assoc; [reflexivity | exact H].
Qed.

(** Reading back what [save_pid] wrote, from any dict read so far. *)
Lemma load_pid_loop_kv_text d2 : forall d1,
  clean_keys (d1 ++ d2)%list = true ->
  load_pid_loop (filelines_from "" (kv_text d2)) d1 = Ok (d1 ++ d2)%list.
Proof.
  induction d2 as [|[k v] d2 IH]; intros d1 H; simpl.
  - now rewrite app_nil_r.
  - destruct (clean_keys_head _ _ _ _ H) as [Hs He].
    rewrite kv_line_shape, filelines_from_line by now apply nospace_line.
    simpl. rewrite contains_eq_sign.
    rewrite strip_nospace by now apply nospace_line.
    unfold split_sep1. rewrite split_first_key by assumption.
    simpl. rewrite int_str.
    rewrite get_app_fresh by (eapply clean_keys_fresh; eassumption).
    rewrite IH; rewrite <- app_assoc; [reflexivity | exact H].
Qed.

End TextFacts.

(* ===================================================================== *)
(** ** Number lemmas and the animator in closed form *)
(* ===================================================================== *)

Module NumFacts.

#[local] Open Scope Q_scope.

#[export] Instance round_comp : Proper (Qeq ==> eq) PyNum.round.
Proof.
  intros x y E. unfold PyNum.round.
  rewrite (Qfloor_comp _ _ E).
  assert (E' : x - inject_Z (Qfloor y) == y - inject_Z (Qfloor y))
    by (rewrite E; reflexivity).
  now rewrite (Qcompare_comp _ _ E' _ _ (Qeq_refl (1 # 2))).
Qed.

Lemma round_inject_Z z : PyNum.round (inject_Z z) = z.
Proof.
  unfold PyNum.round. rewrite Qfloor_Z.
  assert (E : inject_Z z - inject_Z z == 0) by ring.
  now rewrite (Qcompare_comp _ _ E _ _ (Qeq_refl (1 # 2))).
Qed.

Lemma round_integer x z : x == inject_Z z -> PyNum.round x = z.
Proof. intros E. rewrite E. apply round_inject_Z. Qed.

Lemma int_inject_Z z : PyNum.int (inject_Z z) = z.
Proof. unfold PyNum.int. simpl. apply Z.quot_1_r. Qed.

Lemma inject_Z_succ k : inject_Z (Z.of_nat (S k)) == inject_Z (Z.of_nat k) + 1.
Proof. rewrite Nat2Z.inj_succ. unfold Z.succ. now rewrite inject_Z_plus. Qed.

Section Loop.

Variable window_id : Z.
Variables tw th cw ch cx cy tx ty : Q.

#[local] Abbreviation w_step := ((tw - cw) / inject_Z steps).
#[local] Abbreviation h_step := ((th - ch) / inject_Z steps).
#[local] Abbreviation x_move_step := ((cx - tx) / inject_Z steps).
#[local] Abbreviation y_move_step := ((cy - ty) / inject_Z steps).

(** In exact arithmetic: after [k] iterations the accumulators hold the
    [k]-th interpolant, and the remaining [n] iterations issue frames
    [k+1 .. k+n]. *)
Lemma move_window_loop_frames n : forall k new_w new_h new_x new_y,
  new_w == cw + inject_Z (Z.of_nat k) * w_step ->
  new_h == ch + inject_Z (Z.of_nat k) * h_step ->
  new_x == cx - inject_Z (Z.of_nat k) * x_move_step ->
  new_y == cy - inject_Z (Z.of_nat k) * y_move_step ->
  move_window_loop window_id w_step h_step x_move_step y_move_step
    n new_w new_h new_x new_y =
  flat_map (frame_requests window_id)
    (frames_from (S k) n tw th cw ch cx cy tx ty).
Proof.
  induction n as [|n IH]; intros k new_w new_h new_x new_y Hw Hh Hx Hy.
  - reflexivity.
  - assert (Hw' : new_w + w_step == cw + inject_Z (Z.of_nat (S k)) * w_step)
      by (rewrite Hw, inject_Z_succ; ring).
    assert (Hh' : new_h + h_step == ch + inject_Z (Z.of_nat (S k)) * h_step)
      by (rewrite Hh, inject_Z_succ; ring).
    assert (Hx' : new_x - x_move_step
                  == cx - inject_Z (Z.of_nat (S k)) * x_move_step)
      by (rewrite Hx, inject_Z_succ; ring).
    assert (Hy' : new_y - y_move_step
                  == cy - inject_Z (Z.of_nat (S k)) * y_move_step)
      by (rewrite Hy, inject_Z_succ; ring).
    cbn [move_window_loop]. rewrite (IH (S k)) by assumption.
    unfold frames_from. cbn [seq map flat_map frame_requests frame_at app].
    now rewrite Hw', Hh', Hx', Hy'.
Qed.

Lemma move_window_closed_form :
  move_window tw th window_id cw ch cx cy tx ty =
  (flat_map (frame_requests window_id)
     (frames_from 1 25 tw th cw ch cx cy tx ty)
   ++ [ windowsize window_id (PyNum.int tw) (PyNum.int th);
        windowmove window_id (PyNum.int tx) (PyNum.int ty) ])%list.
Proof.
  unfold move_window. f_equal.
  change (Z.to_nat steps) with 25%nat.
  apply (move_window_loop_frames 25 0); simpl inject_Z; ring.
Qed.

End Loop.

Lemma round_near (v : Q) : near v (PyNum.round v).
Proof.
  unfold near, PyNum.round.
  pose proof (Qfloor_le v) as Hlo. pose proof (Qlt_floor v) as Hhi.
  rewrite inject_Z_plus in Hhi. change (inject_Z 1) with 1 in Hhi.
  destruct (Qcompare_spec (v - inject_Z (Qfloor v)) (1 # 2)) as [E|E|E].
  - destruct (Z.even (Qfloor v)).
    + split; lra.
    + rewrite inject_Z_plus. change (inject_Z 1) with 1. split; lra.
  - split; lra.
  - rewrite inject_Z_plus. change (inject_Z 1) with 1. split; lra.
Qed.

Lemma near_comp (u v : Q) (n : Z) : u == v -> near u n -> near v n.
Proof. unfold near. intros E [Hl Hu]. rewrite <- E. now split. Qed.

(** The frames of the closed form are the steps of the interpolation. *)
Lemma frames_from_near n : forall first tw th cw ch cx cy tx ty,
  Forall2 (frame_near (cw, ch, cx, cy) (tw, th, tx, ty))
    (seq first n) (frames_from first n tw th cw ch cx cy tx ty).
Proof.
  unfold frames_from.
  induction n as [|n IH]; intros first tw th cw ch cx cy tx ty; simpl.
  - constructor.
  - constructor; [|apply IH].
    unfold frame_near, frame_at, interpolant.
    repeat split;
      (eapply near_comp; [|apply round_near]); unfold steps; field.
Qed.

(** What [move_window] issues is an animation to the truncated target. *)
Lemma move_window_animates window_id tw th cw ch cx cy tx ty :
  animates window_id (cw, ch, cx, cy) (tw, th, tx, ty)
    (PyNum.int tw, PyNum.int th, PyNum.int tx, PyNum.int ty)
    (move_window tw th window_id cw ch cx cy tx ty).
Proof.
  exists (frames_from 1 25 tw th cw ch cx cy tx ty).
  split; [|split].
  - unfold frames_from. now rewrite length_map, length_seq.
  - apply frames_from_near.
  - apply move_window_closed_form.
Qed.

Lemma move_window_animates_rectangle window_id tw th tx ty cw ch cx cy :
  animates window_id (rectangle cw ch cx cy) (rectangle tw th tx ty)
    (tw, th, tx, ty)
    (move_window (inject_Z tw) (inject_Z th) window_id
       (inject_Z cw) (inject_Z ch) (inject_Z cx) (inject_Z cy)
       (inject_Z tx) (inject_Z ty)).
Proof.
  pose proof (move_window_animates window_id (inject_Z tw) (inject_Z th)
                (inject_Z cw) (inject_Z ch) (inject_Z cx) (inject_Z cy)
                (inject_Z tx) (inject_Z ty)) as H.
  now rewrite !int_inject_Z in H.
Qed.

(** Near an integer there is no other integer. *)
Lemma near_integer (a n : Z) (v : Q) : v == inject_Z a -> near v n -> n = a.
Proof.
  unfold near. intros E [Hl Hu]. rewrite E in Hl, Hu.
  assert (H1 : inject_Z a - 1 < inject_Z n) by lra.
  assert (H2 : inject_Z n < inject_Z a + 1) by lra.
  change 1 with (inject_Z 1) in H1, H2.
  rewrite <- inject_Z_plus in H2.
  unfold Qminus in H1. rewrite <- inject_Z_opp, <- inject_Z_plus in H1.
  rewrite <- Zlt_Qlt in H1, H2. lia.
Qed.

(** Frames between rectangles of the same width, height and [y] keep
    them. *)
Lemma frames_keep_size_and_y (w h x y tx : Z) ks frames :
  Forall2 (frame_near (rectangle w h x y) (rectangle w h tx y)) ks frames ->
  Forall (fun f : Z * Z * Z * Z =>
            let '(fw, fh, _, fy) := f in fw = w /\ fh = h /\ fy = y) frames.
Proof.
  induction 1 as [|k [[[fw fh] fx] fy] ks frames Hnear _ IH]; constructor;
    [|exact IH].
  destruct Hnear as (Hw & Hh & _ & Hy). unfold interpolant, steps in *.
  repeat split; [eapply near_integer; [|exact Hw]
                | eapply near_integer; [|exact Hh]
                | eapply near_integer; [|exact Hy]]; field.
Qed.

Lemma frames_from_length first n tw th cw ch cx cy tx ty :
  length (frames_from first n tw th cw ch cx cy tx ty) = n.
Proof. unfold frames_from. now rewrite length_map, length_seq. Qed.

(** With target equal to an integral current rectangle every frame is
    that rectangle. *)
Lemma frame_at_still (w h x y k : Z) :
  frame_at (inject_Z w) (inject_Z h) (inject_Z w) (inject_Z h)
           (inject_Z x) (inject_Z y) (inject_Z x) (inject_Z y) k
  = (w, h, x, y).
Proof.
  unfold frame_at.
  rewrite (round_integer _ w), (round_integer _ h),
          (round_integer _ x), (round_integer _ y);
    [reflexivity | unfold steps; field ..].
Qed.

Lemma frames_from_still (w h x y : Z) n : forall first,
  frames_from first n (inject_Z w) (inject_Z h) (inject_Z w) (inject_Z h)
              (inject_Z x) (inject_Z y) (inject_Z x) (inject_Z y)
  = repeat (w, h, x, y) n.
Proof.
  unfold frames_from. induction n as [|n IH]; intros first; simpl.
  - reflexivity.
  - now rewrite frame_at_still, IH.
Qed.

End NumFacts.

(* ===================================================================== *)
(** ** Running the actions *)
(* ===================================================================== *)

Module RunFacts.
Import TextFacts NumFacts.

#[local] Opaque move_window.

Lemma get_window_position_ok e s :
  get_window_position e s = (Ok (window_dict (active_window e)), s).
Proof.
  unfold get_window_position, shell_geometry, PyStr.splitlines.
  now rewrite (parse_geometry_kv_text (window_dict (active_window e)) []).
Qed.

Lemma get_screen_for_window_ok x e s screens :
  get_screens (xrandr_output e) = Ok screens ->
  get_screen_for_window x e s = (Ok (screen_for_window screens x), s).
Proof. intros H. unfold get_screen_for_window. now rewrite H. Qed.

Lemma get_screen_for_window_raise x e s err :
  get_screens (xrandr_output e) = Raise err ->
  get_screen_for_window x e s = (Raise err, s).
Proof. intros H. unfold get_screen_for_window. now rewrite H. Qed.

Lemma load_pid_hit window_id e s d :
  clean_keys d = true ->
  cache s !! window_id = Some (kv_text d) ->
  load_pid window_id e s = (Ok (Some d), s).
Proof.
  intros Hd H. unfold load_pid, PyStr.filelines. rewrite H.
  now rewrite (load_pid_loop_kv_text d []).
Qed.

Lemma load_pid_miss window_id e s :
  cache s !! window_id = None -> load_pid window_id e s = (Ok None, s).
Proof. intros H. unfold load_pid. now rewrite H. Qed.

Lemma bind_ok {A B} (m : M A) (k : A -> M B) e s a s' :
  m e s = (Ok a, s') -> bind m k e s = k a e s'.
Proof. intros H. unfold bind. now rewrite H. Qed.

Lemma bind_raise {A B} (m : M A) (k : A -> M B) e s x s' :
  m e s = (Raise x, s') -> bind m k e s = (Raise x, s').
Proof. intros H. unfold bind. now rewrite H. Qed.

Lemma bind_lift_ok {A B} (a : A) (k : A -> M B) e s :
  bind (lift (Ok a)) k e s = k a e s.
Proof. reflexivity. Qed.

Lemma save_pid_ok window_id data e s :
  save_pid window_id data e s = (Ok tt, saved window_id data s).
Proof. reflexivity. Qed.

Lemma run_all_ok rs e s : run_all rs e s = (Ok tt, issue rs s).
Proof. reflexivity. Qed.

(** One step of a run: the head of a [bind] chain is evaluated. *)
Ltac run1 :=
  first
    [ rewrite bind_lift_ok
    | erewrite bind_ok by
        first [ apply get_window_position_ok
              | apply save_pid_ok
              | eapply get_screen_for_window_ok; eassumption
              | eapply load_pid_hit; [ | eassumption]; reflexivity
              | eapply load_pid_miss; eassumption ] ];
  cbn [window_dict getitem get String.eqb Ascii.eqb Bool.eqb].

Ltac run := repeat run1; rewrite ?run_all_ok.

Lemma fullscreen_run e s screens :
  get_screens (xrandr_output e) = Ok screens ->
  fullscreen e s =
  let w := active_window e in
  let '(screen_w, screen_h, base_x_offset) :=
    screen_for_window screens (X w) in
  (Ok tt,
   issue (move_window (inject_Z (screen_w - 10)) (inject_Z (screen_h - 10))
            (WINDOW w)
            (inject_Z (WIDTH w)) (inject_Z (HEIGHT w))
            (inject_Z (X w)) (inject_Z (Y w))
            (inject_Z (if 0 <? base_x_offset then base_x_offset + 5 else 5))
            (inject_Z 5))
     (saved (WINDOW w) (window_dict w) s)).
Proof.
  intros H. unfold fullscreen. run.
  destruct (screen_for_window screens (X (active_window e))) as [[sw sh] xb].
  now run.
Qed.

(** The cache is written before the display layout is even asked for:
    it stays written when [get_screens] raises. *)
Lemma fullscreen_raise e s err :
  get_screens (xrandr_output e) = Raise err ->
  fullscreen e s =
  (Raise err,
   saved (WINDOW (active_window e)) (window_dict (active_window e)) s).
Proof.
  intros H. unfold fullscreen. run.
  erewrite bind_raise; [reflexivity|].
  now apply get_screen_for_window_raise.
Qed.

Lemma unscreen_hit e s screens w0 :
  get_screens (xrandr_output e) = Ok screens ->
  cache s !! WINDOW (active_window e) = Some (kv_text (window_dict w0)) ->
  unscreen e s =
  let w := active_window e in
  let '(_, _, base_x_offset) := screen_for_window screens (X w) in
  (Ok tt,
   issue (move_window (inject_Z (WIDTH w0)) (inject_Z (HEIGHT w0))
            (WINDOW w)
            (inject_Z (WIDTH w - 10)) (inject_Z (HEIGHT w - 10))
            (inject_Z (if 0 <? base_x_offset then base_x_offset else 5))
            (inject_Z 5)
            (inject_Z (X w0)) (inject_Z (Y w0)))
     s).
Proof.
  intros H Hc. unfold unscreen. run.
  destruct (screen_for_window screens (X (active_window e))) as [[sw sh] xb].
  now run.
Qed.

Lemma unscreen_miss e s screens :
  get_screens (xrandr_output e) = Ok screens ->
  cache s !! WINDOW (active_window e) = None ->
  unscreen e s = (Ok tt, s).
Proof.
  intros H Hc. unfold unscreen. run.
  destruct (screen_for_window screens (X (active_window e))) as [[sw sh] xb].
  now run.
Qed.

(** Whatever [xrandr] printed, a restore without a record leaves the
    world alone. *)
Lemma unscreen_miss_world e s :
  cache s !! WINDOW (active_window e) = None ->
  snd (unscreen e s) = s.
Proof.
  intros Hc.
  destruct (get_screens (xrandr_output e)) as [screens|err] eqn:H.
  - now rewrite (unscreen_miss _ _ _ H Hc).
  - unfold unscreen. run.
    now rewrite (bind_raise _ _ _ _ _ _ (get_screen_for_window_raise _ _ _ _ H)).
Qed.

Lemma toggle_fullscreen_run e s screens :
  get_screens (xrandr_output e) = Ok screens ->
  toggle_fullscreen e s =
  let w := active_window e in
  let '(screen_w, _, _) := screen_for_window screens (X w) in
  if WIDTH w =? screen_w - 10 then unscreen e s else fullscreen e s.
Proof.
  intros H. unfold toggle_fullscreen. run.
  destruct (screen_for_window screens (X (active_window e))) as [[sw sh] xb].
  run. now destruct (WIDTH (active_window e) =? sw - 10).
Qed.

Lemma direction_run direction_code e s screens :
  get_screens (xrandr_output e) = Ok screens ->
  direction direction_code e s =
  let w := active_window e in
  let '(screen_w, screen_h, base_x_offset) :=
    screen_for_window screens (X w) in
  let '(target_w, target_h, target_x, target_y) :=
    direction_target direction_code (WIDTH w) (HEIGHT w)
      screen_w screen_h base_x_offset in
  (Ok tt,
   issue (move_window target_w target_h (WINDOW w)
            (inject_Z (WIDTH w)) (inject_Z (HEIGHT w))
            (inject_Z (X w)) (inject_Z (Y w)) target_x target_y)
     s).
Proof.
  intros H. unfold direction. run.
  destruct (screen_for_window screens (X (active_window e))) as [[sw sh] xb].
  run.
  destruct (direction_target direction_code _ _ sw sh xb) as [[[tw th] tx] ty].
  now run.
Qed.

Lemma toggle_display_run e s primary others :
  get_screens (xrandr_output e) = Ok (Some primary, others) ->
  toggle_display e s =
  let w := active_window e in
  let shift := if width primary - 1 <? X w then - width primary
               else width primary in
  (Ok tt,
   issue (move_window (inject_Z (WIDTH w)) (inject_Z (HEIGHT w)) (WINDOW w)
            (inject_Z (WIDTH w)) (inject_Z (HEIGHT w))
            (inject_Z (X w)) (inject_Z (Y w))
            (inject_Z (X w + shift)) (inject_Z (Y w)))
     s).
Proof.
  intros H. unfold toggle_display. run. rewrite H. now run.
Qed.

Lemma toggle_display_no_primary e s others :
  get_screens (xrandr_output e) = Ok (None, others) ->
  toggle_display e s = (Ok tt, s).
Proof.
  intros H. unfold toggle_display. run. now rewrite H.
Qed.

(** The dispatcher hands each token to its action. *)
Lemma main_dispatch :
  main "F" = fullscreen /\ main "U" = unscreen /\
  main "TF" = toggle_fullscreen /\ main "TD" = toggle_display /\
  main "CC" = clear_cache /\
  Forall (fun code => main code = direction code) direction_codes.
Proof. repeat split; repeat constructor. Qed.

Lemma screen_for_window_no_primary others x :
  screen_for_window (None, others) x = (1920, 1080, 0).
Proof. reflexivity. Qed.

Lemma screen_for_window_lone_1920 x :
  screen_for_window (Some display_1920, []) x = (1920, 1080, 0).
Proof. unfold screen_for_window. now destruct (_ <? x). Qed.

(** A restore sees the collaborators only through the active window
    and the screen resolved for it. *)
Lemma unscreen_same_screen e e' s screens screens' :
  get_screens (xrandr_output e) = Ok screens ->
  get_screens (xrandr_output e') = Ok screens' ->
  active_window e' = active_window e ->
  screen_for_window screens' (X (active_window e))
  = screen_for_window screens (X (active_window e)) ->
  unscreen e s = unscreen e' s.
Proof.
  intros H H' Hw Hscreen. unfold unscreen.
  rewrite (bind_ok _ _ e s _ _ (get_window_position_ok e s)).
  rewrite (bind_ok _ _ e' s _ _ (get_window_position_ok e' s)).
  rewrite Hw. cbn [window_dict getitem get String.eqb Ascii.eqb Bool.eqb].
  rewrite !bind_lift_ok.
  rewrite (bind_ok _ _ e s _ _ (get_screen_for_window_ok _ e s _ H)).
  rewrite (bind_ok _ _ e' s _ _ (get_screen_for_window_ok _ e' s _ H')).
  rewrite Hscreen.
  destruct (screen_for_window screens (X (active_window e))) as [[sw sh] xb].
  cbv [bind lift run_all ret load_pid].
  destruct (cache s !! WINDOW (active_window e)) as [text|]; [|reflexivity].
  destruct (load_pid_loop (PyStr.filelines text) []) as [[|kv d]|err];
    reflexivity.
Qed.

End RunFacts.

(* ===================================================================== *)
(** ** Display enumerator: which lines are passed over *)
(* ===================================================================== *)

Module EnumFacts.

(** A line without the marker is passed over. *)
Lemma get_screens_loop_other line rest primary others :
  PyStr.contains " connected" line = false ->
  get_screens_loop (line :: rest) primary others =
  get_screens_loop rest primary others.
Proof. intros H. simpl. now rewrite H. Qed.

(** A connected display is passed over in silence when its line is the
    last one, when the next line is blank, and when the first token of
    the next line has no ["x"]. *)
Lemma get_screens_loop_skip line rest primary others :
  PyStr.contains " connected" line = true ->
  match rest with
  | [] => True
  | next :: _ =>
      match PyStr.split (PyStr.strip next) with
      | [] => True
      | res_str :: _ => PyStr.contains "x" res_str = false
      end
  end ->
  get_screens_loop (line :: rest) primary others =
  get_screens_loop rest primary others.
Proof.
  intros H Hnext. cbn [get_screens_loop]. rewrite H.
  destruct rest as [|next rest']; [reflexivity|].
  destruct (PyStr.split (PyStr.strip next)) as [|res_str parts];
    [reflexivity|].
  now rewrite Hnext.
Qed.

(** A token with an ["x"] that is not two integer literals stops the
    whole enumeration. *)
Lemma get_screens_loop_raise line next rest res_str parts primary others :
  PyStr.contains " connected" line = true ->
  PyStr.split (PyStr.strip next) = res_str :: parts ->
  PyStr.contains "x" res_str = true ->
  unpack_resolution (PyStr.split_sep "x" res_str) = Raise ValueError ->
  get_screens_loop (line :: next :: rest) primary others = Raise ValueError.
Proof.
  intros H Hs Hx Hu. cbn [get_screens_loop]. now rewrite H, Hs, Hx, Hu.
Qed.

End EnumFacts.

(* ===================================================================== *)
(** ** The claims *)
(* ===================================================================== *)

Import TextFacts NumFacts RunFacts.

(** C1.  Whatever the nine arguments, [move_window] issues 25 frames,
    the [k]-th a resize and a move at step [k] of the interpolation from
    the current rectangle to the target, each coordinate rounded to a
    nearest integer; and then one resize and one move whose values are
    the targets truncated by [int], whatever the frames were rounded
    to. *)
Theorem move_window_ends_at_truncated_target :
  forall (target_w target_h : Q) (window_id : Z)
         (current_w current_h current_x current_y target_x target_y : Q),
  exists frames : list (Z * Z * Z * Z),
    length frames = 25%nat /\
    Forall2 (frame_near (current_w, current_h, current_x, current_y)
                        (target_w, target_h, target_x, target_y))
      (seq 1 25) frames /\
    move_window target_w target_h window_id
      current_w current_h current_x current_y target_x target_y
    = (flat_map (frame_requests window_id) frames
       ++ [ windowsize window_id (PyNum.int target_w) (PyNum.int target_h);
            windowmove window_id (PyNum.int target_x) (PyNum.int target_y) ])%list.
Proof.
  intros. exact (move_window_animates window_id target_w target_h
                   current_w current_h current_x current_y target_x target_y).
Qed.

(** C10.  Animating an integral rectangle to itself: every step delta
    is zero, each of the 25 frames asks for that same rectangle, and so
    does the final request. *)
Theorem move_window_still :
  forall (w h x y window_id : Z),
    let qw := inject_Z w in
    let qh := inject_Z h in
    let qx := inject_Z x in
    let qy := inject_Z y in
    ((qw - qw) / inject_Z steps == 0)%Q /\
    ((qh - qh) / inject_Z steps == 0)%Q /\
    ((qx - qx) / inject_Z steps == 0)%Q /\
    ((qy - qy) / inject_Z steps == 0)%Q /\
    move_window qw qh window_id qw qh qx qy qx qy
    = (flat_map (frame_requests window_id) (repeat (w, h, x, y) 25)
       ++ [windowsize window_id w h; windowmove window_id x y])%list.
Proof.
  intros w h x y window_id qw qh qx qy.
  repeat split; try (unfold steps; field).
  rewrite move_window_closed_form. subst qw qh qx qy.
  now rewrite frames_from_still, !int_inject_Z.
Qed.

(** C2.  With a primary display of width [P]: a window at [x <= P - 1]
    is on the primary display, offset 0; past that it is on the first
    secondary display, offset [P], when there is one, and on the primary
    display, offset 0, when there is none. *)
Theorem get_screen_for_window_selection :
  forall (e : env) (s : world) (primary : screen_data)
         (others : list screen_data) (x : Z),
    get_screens (xrandr_output e) = Ok (Some primary, others) ->
    let P := width primary in
    (x <= P - 1 ->
       get_screen_for_window x e s = (Ok (P, height primary, 0), s)) /\
    (P - 1 < x ->
       forall other rest, others = other :: rest ->
       get_screen_for_window x e s
       = (Ok (width other, height other, P), s)) /\
    (P - 1 < x -> others = [] ->
       get_screen_for_window x e s = (Ok (P, height primary, 0), s)).
Proof.
  intros e s primary others x Hs P.
  rewrite (get_screen_for_window_ok _ _ _ _ Hs). unfold screen_for_window.
  fold P. repeat split.
  - intros Hx. destruct (Z.ltb_spec (P - 1) x); [lia | reflexivity].
  - intros Hx other rest ->.
    destruct (Z.ltb_spec (P - 1) x); [reflexivity | lia].
  - intros Hx ->. now destruct (P - 1 <? x).
Qed.

Lemma get_screen_for_window_selection_witness :
  get_screens
    (xrandr_output {| xrandr_output := xrandr_dual;
                      active_window := window_123 |})
  = Ok (Some display_1920, [display_1280]) /\
  get_screen_for_window 1919
    {| xrandr_output := xrandr_dual; active_window := window_123 |} world0
  = (Ok (1920, 1080, 0), world0) /\
  get_screen_for_window 1920
    {| xrandr_output := xrandr_dual; active_window := window_123 |} world0
  = (Ok (1280, 1024, 1920), world0).
Proof.
  assert (Hs : get_screens
                 (xrandr_output {| xrandr_output := xrandr_dual;
                                   active_window := window_123 |})
               = Ok (Some display_1920, [display_1280]))
    by (vm_compute; reflexivity).
  split; [exact Hs|].
  split.
  - apply (proj1 (get_screen_for_window_selection _ world0 _ _ 1919 Hs)).
    now vm_compute.
  - refine (proj1 (proj2 (get_screen_for_window_selection
                            _ world0 _ _ 1920 Hs)) _ display_1280 [] eq_refl).
    now vm_compute.
Defined.

(** C7.  With a primary display of width [P], toggle-display animates
    the window from its rectangle to the same width, height and [y] at
    [x + P] when [x <= P - 1] and at [x - P] otherwise: every frame keeps
    the width, the height and [y], and the final request resizes to the
    window's own size and moves it to the shifted [x]. *)
Theorem toggle_display_shifts_by_primary_width :
  forall (e : env) (s : world) (primary : screen_data)
         (others : list screen_data),
    get_screens (xrandr_output e) = Ok (Some primary, others) ->
    let w := active_window e in
    let P := width primary in
    let target_x := if X w <=? P - 1 then X w + P else X w - P in
    exists frames : list (Z * Z * Z * Z),
      length frames = 25%nat /\
      Forall2 (frame_near (rectangle (WIDTH w) (HEIGHT w) (X w) (Y w))
                          (rectangle (WIDTH w) (HEIGHT w) target_x (Y w)))
        (seq 1 25) frames /\
      Forall (fun f : Z * Z * Z * Z =>
                let '(fw, fh, _, fy) := f in
                fw = WIDTH w /\ fh = HEIGHT w /\ fy = Y w) frames /\
      toggle_display e s
      = (Ok tt,
         issue (flat_map (frame_requests (WINDOW w)) frames
                ++ [ windowsize (WINDOW w) (WIDTH w) (HEIGHT w);
                     windowmove (WINDOW w) target_x (Y w) ])
           s).
Proof.
  intros e s primary others Hs w P target_x.
  rewrite (toggle_display_run _ _ _ _ Hs). cbv zeta. fold w P.
  replace (X w + (if P - 1 <? X w then - P else P)) with target_x
    by (subst target_x;
        destruct (Z.leb_spec (X w) (P - 1)), (Z.ltb_spec (P - 1) (X w)); lia).
  destruct (move_window_animates_rectangle (WINDOW w)
              (WIDTH w) (HEIGHT w) target_x (Y w)
              (WIDTH w) (HEIGHT w) (X w) (Y w))
    as (frames & Hlen & Hnear & Heq).
  exists frames. split; [exact Hlen|]. split; [exact Hnear|].
  split; [exact (frames_keep_size_and_y _ _ _ _ _ _ _ Hnear)|].
  now rewrite Heq.
Qed.

Lemma toggle_display_shifts_by_primary_width_witness :
  get_screens
    (xrandr_output {| xrandr_output := xrandr_dual;
                      active_window := window_77 |})
  = Ok (Some display_1920, [display_1280]) /\
  exists frames : list (Z * Z * Z * Z),
    length frames = 25%nat /\
    Forall2 (frame_near (rectangle 800 600 100 40)
                        (rectangle 800 600 2020 40))
      (seq 1 25) frames /\
    Forall (fun f : Z * Z * Z * Z =>
              let '(fw, fh, _, fy) := f in
              fw = 800 /\ fh = 600 /\ fy = 40) frames /\
    toggle_display
      {| xrandr_output := xrandr_dual; active_window := window_77 |} world0
    = (Ok tt,
       issue (flat_map (frame_requests 77) frames
              ++ [windowsize 77 800 600; windowmove 77 2020 40])
         world0).
Proof.
  assert (Hs : get_screens
                 (xrandr_output {| xrandr_output := xrandr_dual;
                                   active_window := window_77 |})
               = Ok (Some display_1920, [display_1280]))
    by (vm_compute; reflexivity).
  split; [exact Hs|].
  exact (toggle_display_shifts_by_primary_width _ world0 _ _ Hs).
Defined.

(** C3.  For a window and the screen [(screen_w, screen_h, xBase)]
    resolved for it, each directional action computes the target of the
    table: [N] and [S] full width and half height at [y = 0] and
    [y = screen_h / 2]; [E] and [W] half width and full height at
    [x = xBase + screen_w / 2] and [x = xBase]; the four corners half
    width and half height; [C] the window's own size at
    [((screen_w - W) / 2 + xBase, (screen_h - H) / 2)].  The two halves
    add up to the screen in each direction, so the halves and the
    quarters tile it.  The action then animates the window from its
    rectangle to that target: 25 interpolation frames and a final
    request at the target truncated to whole pixels. *)
Theorem direction_targets_follow_table :
  forall (e : env) (s : world) (screens : option screen_data * list screen_data)
         (screen_w screen_h xBase : Z),
    get_screens (xrandr_output e) = Ok screens ->
    screen_for_window screens (X (active_window e))
    = (screen_w, screen_h, xBase) ->
    let w := active_window e in
    let target code :=
      direction_target code (WIDTH w) (HEIGHT w) screen_w screen_h xBase in
    let halfW := (inject_Z screen_w / 2)%Q in
    let halfH := (inject_Z screen_h / 2)%Q in
    let base := inject_Z xBase in
    (forall code,
       let '(target_w, target_h, target_x, target_y) := target code in
       exists frames : list (Z * Z * Z * Z),
         length frames = 25%nat /\
         Forall2 (frame_near (rectangle (WIDTH w) (HEIGHT w) (X w) (Y w))
                             (target_w, target_h, target_x, target_y))
           (seq 1 25) frames /\
         direction code e s
         = (Ok tt,
            issue (flat_map (frame_requests (WINDOW w)) frames
                   ++ [ windowsize (WINDOW w)
                          (PyNum.int target_w) (PyNum.int target_h);
                        windowmove (WINDOW w)
                          (PyNum.int target_x) (PyNum.int target_y) ])
              s)) /\
    target "N" = (inject_Z screen_w, halfH, base, 0%Q) /\
    target "S" = (inject_Z screen_w, halfH, base, halfH) /\
    target "E" = (halfW, inject_Z screen_h, (base + halfW)%Q, 0%Q) /\
    target "W" = (halfW, inject_Z screen_h, base, 0%Q) /\
    target "NE" = (halfW, halfH, (base + halfW)%Q, 0%Q) /\
    target "NW" = (halfW, halfH, base, 0%Q) /\
    target "SE" = (halfW, halfH, (base + halfW)%Q, halfH) /\
    target "SW" = (halfW, halfH, base, halfH) /\
    target "C" = (inject_Z (WIDTH w), inject_Z (HEIGHT w),
                  (inject_Z (screen_w - WIDTH w) / 2 + base)%Q,
                  (inject_Z (screen_h - HEIGHT w) / 2)%Q) /\
    (halfH + halfH == inject_Z screen_h)%Q /\
    (halfW + halfW == inject_Z screen_w)%Q.
Proof.
  intros e s screens screen_w screen_h xBase Hs Hscreen w target halfW halfH base.
  split.
  - intros code.
    pose proof (direction_run code _ s _ Hs) as Hrun. cbv zeta in Hrun.
    rewrite Hscreen in Hrun. fold w in Hrun. subst target. cbv beta.
    destruct (direction_target code (WIDTH w) (HEIGHT w)
                screen_w screen_h xBase) as [[[tw th] tx] ty].
    destruct (move_window_animates (WINDOW w) tw th
                (inject_Z (WIDTH w)) (inject_Z (HEIGHT w))
                (inject_Z (X w)) (inject_Z (Y w)) tx ty)
      as (frames & Hlen & Hnear & Heq).
    exists frames. split; [exact Hlen|]. split; [exact Hnear|].
    rewrite Hrun. now rewrite Heq.
  - repeat split; try reflexivity; subst halfH halfW; field.
Qed.

Lemma direction_targets_follow_table_witness :
  get_screens
    (xrandr_output {| xrandr_output := xrandr_dual;
                      active_window := window_77 |})
  = Ok (Some display_1920, [display_1280]) /\
  screen_for_window (Some display_1920, [display_1280]) 100
  = (1920, 1080, 0) /\
  direction_target "C" 800 600 1920 1080 0
  = (inject_Z 800, inject_Z 600,
     (inject_Z (1920 - 800) / 2 + inject_Z 0)%Q,
     (inject_Z (1080 - 600) / 2)%Q) /\
  exists frames : list (Z * Z * Z * Z),
    length frames = 25%nat /\
    Forall2 (frame_near (rectangle 800 600 100 40)
                        (inject_Z 800, inject_Z 600,
                         (inject_Z (1920 - 800) / 2 + inject_Z 0)%Q,
                         (inject_Z (1080 - 600) / 2)%Q))
      (seq 1 25) frames /\
    direction "C"
      {| xrandr_output := xrandr_dual; active_window := window_77 |} world0
    = (Ok tt,
       issue (flat_map (frame_requests 77) frames
              ++ [windowsize 77 800 600; windowmove 77 560 240])
         world0).
Proof.
  assert (Hs : get_screens
                 (xrandr_output {| xrandr_output := xrandr_dual;
                                   active_window := window_77 |})
               = Ok (Some display_1920, [display_1280]))
    by (vm_compute; reflexivity).
  assert (Hscreen : screen_for_window (Some display_1920, [display_1280])
                      (X (active_window
                            {| xrandr_output := xrandr_dual;
                               active_window := window_77 |}))
                    = (1920, 1080, 0))
    by reflexivity.
  split; [exact Hs|]. split; [exact Hscreen|]. split; [reflexivity|].
  exact (proj1 (direction_targets_follow_table _ world0 _ _ _ _ Hs Hscreen) "C").
Defined.

(** C4.  Fullscreen first writes the window's geometry into the cache
    under its window id and then animates the window from its rectangle
    to the screen shrunk by 10: 25 interpolation frames and a final
    resize to [(screen_w - 10, screen_h - 10)] and move to [(5, 5)] on
    the primary display and to [(P + 5, 5)] on a secondary one, [P] the
    primary width. *)
Theorem fullscreen_saves_then_fills_screen :
  forall (e : env) (s : world) (primary : screen_data)
         (others : list screen_data),
    get_screens (xrandr_output e) = Ok (Some primary, others) ->
    0 <= width primary ->
    let w := active_window e in
    let P := width primary in
    let record := kv_text (window_dict w) in
    let fills screen_w screen_h x_offset :=
      exists frames : list (Z * Z * Z * Z),
        length frames = 25%nat /\
        Forall2 (frame_near
                   (rectangle (WIDTH w) (HEIGHT w) (X w) (Y w))
                   (rectangle (screen_w - 10) (screen_h - 10) x_offset 5))
          (seq 1 25) frames /\
        fullscreen e s
        = (Ok tt,
           {| cache := <[WINDOW w := record]> (cache s);
              log := log s
                     ++ written (WINDOW w) record
                     :: map ran
                          (flat_map (frame_requests (WINDOW w)) frames
                           ++ [ windowsize (WINDOW w)
                                  (screen_w - 10) (screen_h - 10);
                                windowmove (WINDOW w) x_offset 5 ]) |}) in
    (X w <= P - 1 -> fills P (height primary) 5) /\
    (P - 1 < X w -> others = [] -> fills P (height primary) 5) /\
    (P - 1 < X w ->
       forall other rest, others = other :: rest ->
       fills (width other) (height other) (P + 5)).
Proof.
  intros e s primary others Hs HP w P record fills.
  assert (Hfill : forall screen_w screen_h xBase,
             screen_for_window (Some primary, others) (X w)
             = (screen_w, screen_h, xBase) ->
             fills screen_w screen_h (if 0 <? xBase then xBase + 5 else 5)).
  { intros screen_w screen_h xBase E. subst fills. cbv beta.
    destruct (move_window_animates_rectangle (WINDOW w)
                (screen_w - 10) (screen_h - 10)
                (if 0 <? xBase then xBase + 5 else 5) 5
                (WIDTH w) (HEIGHT w) (X w) (Y w))
      as (frames & Hlen & Hnear & Heq).
    exists frames. split; [exact Hlen|]. split; [exact Hnear|].
    rewrite (fullscreen_run e s _ Hs). cbv zeta. fold w. rewrite E.
    unfold issue, saved. cbn [cache log]. rewrite <- app_assoc.
    cbn [app]. fold record. now rewrite Heq. }
  unfold screen_for_window in Hfill. fold P in Hfill.
  repeat split.
  - intros Hx. apply (Hfill P (height primary) 0).
    destruct (Z.ltb_spec (P - 1) (X w)); [lia | reflexivity].
  - intros Hx ->. apply (Hfill P (height primary) 0).
    now destruct (P - 1 <? X w).
  - intros Hx other rest ->.
    replace (P + 5) with (if 0 <? P then P + 5 else 5)
      by (destruct (Z.ltb_spec 0 P); lia).
    apply Hfill. destruct (Z.ltb_spec (P - 1) (X w)); [reflexivity | lia].
Qed.

Lemma fullscreen_saves_then_fills_screen_witness :
  get_screens
    (xrandr_output {| xrandr_output := xrandr_dual;
                      active_window := window_123 |})
  = Ok (Some display_1920, [display_1280]) /\
  0 <= width display_1920 /\
  exists frames : list (Z * Z * Z * Z),
    length frames = 25%nat /\
    Forall2 (frame_near (rectangle 800 600 2000 0)
                        (rectangle 1270 1014 1925 5))
      (seq 1 25) frames /\
    fullscreen {| xrandr_output := xrandr_dual; active_window := window_123 |}
      world0
    = (Ok tt,
       {| cache := <[123 := kv_text (window_dict window_123)]> ∅;
          log := written 123 (kv_text (window_dict window_123))
                 :: map ran
                      (flat_map (frame_requests 123) frames
                       ++ [ windowsize 123 1270 1014;
                            windowmove 123 1925 5 ]) |}).
Proof.
  assert (Hs : get_screens
                 (xrandr_output {| xrandr_output := xrandr_dual;
                                   active_window := window_123 |})
               = Ok (Some display_1920, [display_1280]))
    by (vm_compute; reflexivity).
  assert (HP : 0 <= width display_1920) by now vm_compute.
  split; [exact Hs|]. split; [exact HP|].
  refine (proj2 (proj2 (fullscreen_saves_then_fills_screen
                          _ world0 _ _ Hs HP)) _ display_1280 [] eq_refl).
  now vm_compute.
Defined.

(** C5.  Fullscreen leaves under the window's id a record of its
    geometry, whatever [xrandr] printed.  A later restore for the same
    window id that reads this record, from any rectangle and any display
    layout, ends with one resize to the width and height and one move to
    the [x] and [y] the window had before fullscreen. *)
Theorem unscreen_after_fullscreen_restores :
  forall (e1 e2 : env) (s s' : world)
         (screens2 : option screen_data * list screen_data),
    get_screens (xrandr_output e2) = Ok screens2 ->
    WINDOW (active_window e2) = WINDOW (active_window e1) ->
    let w1 := active_window e1 in
    let after_F := snd (fullscreen e1 s) in
    cache s' !! WINDOW w1 = cache after_F !! WINDOW w1 ->
    cache after_F !! WINDOW w1 = Some (kv_text (window_dict w1)) /\
    exists frames : list (Z * Z * Z * Z),
      length frames = 25%nat /\
      unscreen e2 s'
      = (Ok tt,
         issue (flat_map (frame_requests (WINDOW w1)) frames
                ++ [ windowsize (WINDOW w1) (WIDTH w1) (HEIGHT w1);
                     windowmove (WINDOW w1) (X w1) (Y w1) ])
           s').
Proof.
  intros e1 e2 s s' screens2 Hs2 Hid w1 after_F Hread. subst w1.
  set (w1 := active_window e1) in *.
  assert (Hrec : cache after_F !! WINDOW w1 = Some (kv_text (window_dict w1))).
  { subst after_F.
    destruct (get_screens (xrandr_output e1)) as [screens1|err] eqn:Hs1.
    - rewrite (fullscreen_run _ _ _ Hs1). cbv zeta. fold w1.
      destruct (screen_for_window screens1 (X w1)) as [[sw sh] xb].
      apply lookup_insert_eq.
    - rewrite (fullscreen_raise _ _ _ Hs1). apply lookup_insert_eq. }
  split; [exact Hrec|].
  rewrite Hrec, <- Hid in Hread.
  rewrite (unscreen_hit _ _ _ _ Hs2 Hread). cbv zeta.
  destruct (screen_for_window screens2 (X (active_window e2)))
    as [[sw sh] xb].
  rewrite move_window_closed_form, !int_inject_Z, Hid.
  eexists. split; [|reflexivity]. apply frames_from_length.
Qed.

Lemma unscreen_after_fullscreen_restores_witness :
  cache (snd (fullscreen
                {| xrandr_output := xrandr_dual;
                   active_window := window_123 |} world0)) !! 123
  = Some (kv_text (window_dict window_123)) /\
  exists frames : list (Z * Z * Z * Z),
    length frames = 25%nat /\
    unscreen
      {| xrandr_output := xrandr_dual;
         active_window := window_123_maximised |}
      (snd (fullscreen
              {| xrandr_output := xrandr_dual;
                 active_window := window_123 |} world0))
    = (Ok tt,
       issue (flat_map (frame_requests 123) frames
              ++ [windowsize 123 800 600; windowmove 123 2000 0])
         (snd (fullscreen
                 {| xrandr_output := xrandr_dual;
                    active_window := window_123 |} world0))).
Proof.
  assert (Hs : get_screens
                 (xrandr_output {| xrandr_output := xrandr_dual;
                                   active_window := window_123_maximised |})
               = Ok (Some display_1920, [display_1280]))
    by (vm_compute; reflexivity).
  exact (unscreen_after_fullscreen_restores
           {| xrandr_output := xrandr_dual; active_window := window_123 |}
           {| xrandr_output := xrandr_dual;
              active_window := window_123_maximised |}
           world0 _ _ Hs eq_refl eq_refl).
Defined.

(** C6, where the code breaks it.  Restore asks for the display layout
    before it looks for the record, so the uncaught [ValueError] of
    [get_screens] on a malformed resolution reaches it too: right after
    clear-cache, with no record for any window, restore on this listing
    does not return normally.  It issues nothing and changes nothing. *)
Theorem unscreen_after_clear_cache_raises :
  main "CC" {| xrandr_output := xrandr_interlaced;
               active_window := window_123 |} world0
  = (Ok tt, world0) /\
  cache world0 !! WINDOW window_123 = None /\
  main "U" {| xrandr_output := xrandr_interlaced;
              active_window := window_123 |} world0
  = (Raise ValueError, world0).
Proof.
  split; [reflexivity|]. split; [apply lookup_empty|].
  change (main "U") with unscreen. unfold unscreen. run.
  assert (Hs : get_screens
                 (xrandr_output {| xrandr_output := xrandr_interlaced;
                                   active_window := window_123 |})
               = Raise ValueError) by (vm_compute; reflexivity).
  now rewrite (bind_raise _ _ _ _ _ _
                 (get_screen_for_window_raise _ _ _ _ Hs)).
Qed.

(** X15.  A restore for a window id without a cache record never
    changes the world, whatever [xrandr] printed: nothing is issued and
    the cache is as before; and the run ends normally whenever
    [get_screens] has read the display layout.  So it is right after
    clear-cache, for any window id. *)
Theorem unscreen_without_record_is_noop :
  forall (e : env) (s : world),
    (cache s !! WINDOW (active_window e) = None ->
       snd (unscreen e s) = s /\
       forall screens, get_screens (xrandr_output e) = Ok screens ->
                       unscreen e s = (Ok tt, s)) /\
    (forall e_cc : env,
       let after_CC := snd (clear_cache e_cc s) in
       fst (clear_cache e_cc s) = Ok tt /\
       cache after_CC = ∅ /\
       snd (unscreen e after_CC) = after_CC /\
       forall screens, get_screens (xrandr_output e) = Ok screens ->
                       unscreen e after_CC = (Ok tt, after_CC)).
Proof.
  intros e s. split.
  - intros Hc. split; [now apply unscreen_miss_world|].
    intros screens Hs. exact (unscreen_miss _ _ _ Hs Hc).
  - intros e_cc after_CC.
    assert (Hc : cache after_CC !! WINDOW (active_window e) = None)
      by apply lookup_empty.
    split; [reflexivity|]. split; [reflexivity|].
    split; [now apply unscreen_miss_world|].
    intros screens Hs. exact (unscreen_miss _ _ _ Hs Hc).
Qed.

Lemma unscreen_without_record_is_noop_witness :
  cache world0 !! WINDOW window_123 = None /\
  get_screens
    (xrandr_output {| xrandr_output := xrandr_dual;
                      active_window := window_123 |})
  = Ok (Some display_1920, [display_1280]) /\
  unscreen {| xrandr_output := xrandr_dual; active_window := window_123 |}
    world0
  = (Ok tt, world0).
Proof.
  assert (Hc : cache world0 !! WINDOW window_123 = None) by apply lookup_empty.
  assert (Hs : get_screens
                 (xrandr_output {| xrandr_output := xrandr_dual;
                                   active_window := window_123 |})
               = Ok (Some display_1920, [display_1280]))
    by (vm_compute; reflexivity).
  split; [exact Hc|]. split; [exact Hs|].
  exact (proj2 (proj1 (unscreen_without_record_is_noop
                         {| xrandr_output := xrandr_dual;
                            active_window := window_123 |} world0) Hc)
           _ Hs).
Defined.

(** C8, where the code breaks it.  A connected display whose next line
    opens with a token that holds an ["x"] without being two integer
    literals is not passed over in silence: here the first mode is
    [1920x1080i], [int("1080i")] raises [ValueError], nothing catches it,
    and no display at all is returned. *)
Theorem get_screens_interlaced_mode_raises :
  get_screens xrandr_interlaced = Raise ValueError.
Proof. vm_compute. reflexivity. Qed.

(** C9 as stated fails for toggle-display: with no primary display it
    issues nothing, where the default width 1920 would have sent the
    window at [x = 100] to [x = 2020]. *)
Lemma toggle_display_without_primary_ignores_default :
  get_screens xrandr_no_primary = Ok (None, [display_1280]) /\
  toggle_display
    {| xrandr_output := xrandr_no_primary; active_window := window_77 |}
    world0
  = (Ok tt, world0) /\
  toggle_display
    {| xrandr_output := xrandr_no_primary; active_window := window_77 |}
    world0
  <> (Ok tt,
      issue (move_window (inject_Z 800) (inject_Z 600) 77
               (inject_Z 800) (inject_Z 600) (inject_Z 100) (inject_Z 40)
               (inject_Z (100 + 1920)) (inject_Z 40))
        world0).
Proof.
  assert (Hs : get_screens xrandr_no_primary = Ok (None, [display_1280]))
    by (vm_compute; reflexivity).
  split; [exact Hs|].
  rewrite (toggle_display_no_primary
             {| xrandr_output := xrandr_no_primary;
                active_window := window_77 |} world0 _ Hs).
  split; [reflexivity|].
  intros H. apply (f_equal (fun r => length (log (snd r)))) in H.
  vm_compute in H. discriminate H.
Qed.

(** C9, amended.  When no display is marked primary,
    [get_screen_for_window] answers 1920 by 1080 at offset 0, so the
    directional actions, fullscreen, restore and toggle-fullscreen run as
    they would on a lone primary display of 1920 by 1080; toggle-display
    returns without issuing anything. *)
Theorem no_primary_falls_back_to_default :
  forall (e e_default : env) (s : world) (others : list screen_data),
    get_screens (xrandr_output e) = Ok (None, others) ->
    get_screens (xrandr_output e_default) = Ok (Some display_1920, []) ->
    active_window e_default = active_window e ->
    (forall x, get_screen_for_window x e s = (Ok (1920, 1080, 0), s)) /\
    (forall code, direction code e s = direction code e_default s) /\
    fullscreen e s = fullscreen e_default s /\
    unscreen e s = unscreen e_default s /\
    toggle_fullscreen e s = toggle_fullscreen e_default s /\
    toggle_display e s = (Ok tt, s).
Proof.
  intros e e_default s others Hs Hd Hw.
  assert (HU : unscreen e s = unscreen e_default s).
  { apply (unscreen_same_screen _ _ _ _ _ Hs Hd Hw).
    now rewrite screen_for_window_lone_1920. }
  assert (HF : fullscreen e s = fullscreen e_default s).
  { rewrite (fullscreen_run _ _ _ Hs), (fullscreen_run _ _ _ Hd), Hw.
    cbv zeta.
    now rewrite screen_for_window_no_primary, screen_for_window_lone_1920. }
  repeat split.
  - intros x. now rewrite (get_screen_for_window_ok _ _ _ _ Hs).
  - intros code.
    rewrite (direction_run _ _ _ _ Hs), (direction_run _ _ _ _ Hd), Hw.
    cbv zeta.
    now rewrite screen_for_window_no_primary, screen_for_window_lone_1920.
  - exact HF.
  - exact HU.
  - rewrite (toggle_fullscreen_run _ _ _ Hs), (toggle_fullscreen_run _ _ _ Hd).
    rewrite Hw. cbv zeta.
    rewrite screen_for_window_no_primary, screen_for_window_lone_1920.
    now rewrite HU, HF.
  - exact (toggle_display_no_primary _ _ _ Hs).
Qed.

Lemma no_primary_falls_back_to_default_witness :
  get_screens
    (xrandr_output {| xrandr_output := xrandr_no_primary;
                      active_window := window_77 |})
  = Ok (None, [display_1280]) /\
  get_screens
    (xrandr_output {| xrandr_output := xrandr_single;
                      active_window := window_77 |})
  = Ok (Some display_1920, []) /\
  get_screen_for_window 100
    {| xrandr_output := xrandr_no_primary; active_window := window_77 |}
    world0
  = (Ok (1920, 1080, 0), world0) /\
  toggle_display
    {| xrandr_output := xrandr_no_primary; active_window := window_77 |}
    world0
  = (Ok tt, world0).
Proof.
  assert (Hs : get_screens
                 (xrandr_output {| xrandr_output := xrandr_no_primary;
                                   active_window := window_77 |})
               = Ok (None, [display_1280]))
    by (vm_compute; reflexivity).
  assert (Hd : get_screens
                 (xrandr_output {| xrandr_output := xrandr_single;
                                   active_window := window_77 |})
               = Ok (Some display_1920, []))
    by (vm_compute; reflexivity).
  split; [exact Hs|]. split; [exact Hd|].
  destruct (no_primary_falls_back_to_default _ _ world0 _ Hs Hd eq_refl)
    as (Hscreen & _ & _ & _ & _ & Htd).
  split; [exact (Hscreen 100) | exact Htd].
Defined.

(* ===================================================================== *)
(** ** Further properties: window query, cache, effects of the actions *)
(* ===================================================================== *)

Module EffectFacts.

Lemma only_requests_same (s : world) (r : result unit) :
  only_requests s (r, s).
Proof.
  split; [reflexivity|]. exists []. simpl. now rewrite app_nil_r.
Qed.

Lemma only_requests_issue (rs : list request) (s : world) :
  only_requests s (Ok tt, issue rs s).
Proof.
  split; [reflexivity|]. exists rs. split; [reflexivity|]. discriminate.
Qed.

End EffectFacts.

Import EffectFacts.

(** X1.  For every window, [get_window_position] reads back from what
    [xdotool] prints exactly the six values of the window, under their
    names and in their order, and raises nothing. *)
Theorem get_window_position_reads_geometry :
  forall (e : env) (s : world),
    let w := active_window e in
    get_window_position e s
    = (Ok [ ("WINDOW", WINDOW w); ("X", X w); ("Y", Y w);
            ("WIDTH", WIDTH w); ("HEIGHT", HEIGHT w); ("SCREEN", SCREEN w) ],
       s).
Proof. intros e s w. apply get_window_position_ok. Qed.

(** X2.  What [save_pid] writes, [load_pid] reads back: for a dict whose
    keys are distinct and free of whitespace and of ["="], loading the
    window id just saved returns that dict, whatever the values; and the
    save leaves what [load_pid] returns for every other window id as it
    was. *)
Theorem load_pid_after_save_pid :
  forall (window_id : Z) (data : dict) (e : env) (s : world),
    clean_keys data = true ->
    let s' := snd (save_pid window_id data e s) in
    load_pid window_id e s' = (Ok (Some data), s') /\
    forall other_id, other_id <> window_id ->
      fst (load_pid other_id e s') = fst (load_pid other_id e s).
Proof.
  intros window_id data e s Hclean s'. split.
  - apply load_pid_hit; [exact Hclean|]. apply lookup_insert_eq.
  - intros other_id Hne. unfold load_pid. subst s'. cbn [save_pid snd cache].
    rewrite lookup_insert_ne by congruence.
    destruct (cache s !! other_id) as [text|]; [|reflexivity].
    now destruct (load_pid_loop (PyStr.filelines text) []).
Qed.

Lemma load_pid_after_save_pid_witness :
  clean_keys [("X", -40); ("WIDTH", 1000); ("note", 0)] = true /\
  load_pid 9 {| xrandr_output := ""; active_window := window_77 |}
    (snd (save_pid 9 [("X", -40); ("WIDTH", 1000); ("note", 0)]
            {| xrandr_output := ""; active_window := window_77 |} world0))
  = (Ok (Some [("X", -40); ("WIDTH", 1000); ("note", 0)]),
     snd (save_pid 9 [("X", -40); ("WIDTH", 1000); ("note", 0)]
            {| xrandr_output := ""; active_window := window_77 |} world0)).
Proof.
  split; [reflexivity|].
  exact (proj1 (load_pid_after_save_pid 9
                  [("X", -40); ("WIDTH", 1000); ("note", 0)]
                  {| xrandr_output := ""; active_window := window_77 |}
                  world0 eq_refl)).
Defined.

(** X3.  Restore, the directional actions and toggle-display never touch
    the cache, not even the record a restore has just used; all they add
    to the log are requests, and none at all when they raise. *)
Theorem quiet_actions_only_issue_requests :
  forall (e : env) (s : world),
    only_requests s (unscreen e s) /\
    (forall code, only_requests s (direction code e s)) /\
    only_requests s (toggle_display e s).
Proof.
  intros e s.
  destruct (get_screens (xrandr_output e)) as [screens|err] eqn:Hs.
  - split; [|split].
    + unfold unscreen. run.
      destruct (screen_for_window screens (X (active_window e)))
        as [[sw sh] xb].
      cbv [bind lift ret load_pid].
      destruct (cache s !! WINDOW (active_window e)) as [text|];
        [|apply only_requests_same].
      destruct (load_pid_loop (PyStr.filelines text) []) as [[|kv d]|err];
        try apply only_requests_same.
      repeat match goal with
             | |- context [getitem ?k ?d] =>
                 destruct (getitem k d); [|apply only_requests_same]
             end.
      rewrite run_all_ok. apply only_requests_issue.
    + intros code. rewrite (direction_run code _ _ _ Hs). cbv zeta.
      destruct (screen_for_window screens (X (active_window e)))
        as [[sw sh] xb].
      destruct (direction_target code _ _ sw sh xb) as [[[tw th] tx] ty].
      apply only_requests_issue.
    + destruct screens as [[primary|] others].
      * rewrite (toggle_display_run _ _ _ _ Hs). apply only_requests_issue.
      * rewrite (toggle_display_no_primary _ _ _ Hs).
        apply only_requests_same.
  - split; [|split].
    + unfold unscreen. run.
      rewrite (bind_raise _ _ _ _ _ _
                 (get_screen_for_window_raise _ _ _ _ Hs)).
      apply only_requests_same.
    + intros code. unfold direction. run.
      rewrite (bind_raise _ _ _ _ _ _
                 (get_screen_for_window_raise _ _ _ _ Hs)).
      apply only_requests_same.
    + unfold toggle_display. run. rewrite Hs. apply only_requests_same.
Qed.

(** X4.  Whatever [xrandr] printed, fullscreen replaces the record of
    the active window's id with its geometry and leaves every other
    record alone; the log gains that write and then requests only, and no
    request at all when the run raises. *)
Theorem fullscreen_writes_one_record :
  forall (e : env) (s : world),
    let w := active_window e in
    let record := kv_text (window_dict w) in
    let run := fullscreen e s in
    cache (snd run) = <[WINDOW w := record]> (cache s) /\
    (forall other_id, other_id <> WINDOW w ->
       cache (snd run) !! other_id = cache s !! other_id) /\
    exists rs : list request,
      log (snd run) = (log s ++ written (WINDOW w) record :: map ran rs)%list /\
      forall x, fst run = Raise x -> rs = [].
Proof.
  intros e s w record run.
  assert (H : cache (snd run) = <[WINDOW w := record]> (cache s) /\
              exists rs : list request,
                log (snd run)
                = (log s ++ written (WINDOW w) record :: map ran rs)%list /\
                forall x, fst run = Raise x -> rs = []).
  { subst run.
    destruct (get_screens (xrandr_output e)) as [screens|err] eqn:Hs.
    - rewrite (fullscreen_run _ _ _ Hs). cbv zeta. fold w.
      destruct (screen_for_window screens (X w)) as [[sw sh] xb].
      split; [reflexivity|]. eexists. split.
      + cbn [snd issue saved log]. rewrite <- app_assoc. reflexivity.
      + discriminate.
    - rewrite (fullscreen_raise _ _ _ Hs). fold w.
      split; [reflexivity|]. exists []. split; [reflexivity|]. reflexivity. }
  destruct H as [Hc Hl]. split; [exact Hc|]. split; [|exact Hl].
  intros other_id Hne. rewrite Hc. apply lookup_insert_ne. congruence.
Qed.

(* ===================================================================== *)
(** ** Further properties: the animator on integral rectangles *)
(* ===================================================================== *)

Module FrameFacts.

#[local] Open Scope Q_scope.

Lemma round_lower (a : Z) (x : Q) : inject_Z a <= x -> (a <= PyNum.round x)%Z.
Proof.
  intros H. apply Qfloor_resp_le in H. rewrite Qfloor_Z in H.
  unfold PyNum.round.
  destruct (Qcompare _ _); [destruct (Z.even _)| |]; lia.
Qed.

Lemma round_upper (b : Z) (x : Q) : x <= inject_Z b -> (PyNum.round x <= b)%Z.
Proof.
  intros H.
  assert (Hfloor : (Qfloor x <= b)%Z).
  { apply Qfloor_resp_le in H. now rewrite Qfloor_Z in H. }
  assert (Hstep : 0 < x - inject_Z (Qfloor x) -> (Qfloor x + 1 <= b)%Z).
  { intros Hfrac.
    assert (Hlt : inject_Z (Qfloor x) < inject_Z b) by lra.
    rewrite <- Zlt_Qlt in Hlt. lia. }
  unfold PyNum.round.
  destruct (Qcompare_spec (x - inject_Z (Qfloor x)) (1 # 2)) as [E|E|E].
  - destruct (Z.even _); [exact Hfloor|]. apply Hstep. rewrite E. reflexivity.
  - exact Hfloor.
  - apply Hstep. lra.
Qed.

Lemma round_between (a b : Z) (x : Q) :
  inject_Z (Z.min a b) <= x <= inject_Z (Z.max a b) ->
  between a b (PyNum.round x).
Proof. intros [Hl Hu]. split; [now apply round_lower | now apply round_upper]. Qed.

(** An interpolant between two integers stays between them. *)
Lemma interpolant_between (a b k : Z) :
  (0 <= k <= 25)%Z ->
  inject_Z (Z.min a b)
  <= inject_Z a + inject_Z k * ((inject_Z b - inject_Z a) / inject_Z steps)
  <= inject_Z (Z.max a b).
Proof.
  intros [Hk0 Hk25]. unfold steps. change (inject_Z 25) with 25.
  assert (K0 : 0 <= inject_Z k) by (now rewrite (Zle_Qle 0 k) in Hk0).
  assert (K25 : inject_Z k <= 25) by (now rewrite (Zle_Qle k 25) in Hk25).
  assert (Hsplit : forall A B K : Q,
             0 <= K -> K <= 25 -> A <= B ->
             A <= A + K * ((B - A) / 25) <= B).
  { intros A B K HK0 HK25 HAB.
    assert (P1 : 0 <= K * (B - A)) by (apply Qmult_le_0_compat; lra).
    assert (P2 : 0 <= (25 - K) * (B - A)) by (apply Qmult_le_0_compat; lra).
    assert (E1 : K * ((B - A) / 25) == K * (B - A) * (1 # 25)) by field.
    assert (E2 : (25 - K) * (B - A) == 25 * (B - A) - K * (B - A)) by ring.
    rewrite E1. rewrite E2 in P2. clear E1 E2.
    remember (K * (B - A)) as P eqn:HP. clear HP. split; lra. }
  destruct (Z.le_ge_cases a b) as [Hab|Hab].
  - rewrite Z.min_l, Z.max_r by assumption.
    rewrite Zle_Qle in Hab. now apply Hsplit.
  - rewrite Z.min_r, Z.max_l by assumption.
    rewrite Zle_Qle in Hab.
    destruct (Hsplit (inject_Z b) (inject_Z a) (25 - inject_Z k))
      as [Hl Hu]; [lra | lra | exact Hab |].
    assert (E : inject_Z b + (25 - inject_Z k)
                              * ((inject_Z a - inject_Z b) / 25)
                == inject_Z a + inject_Z k
                                * ((inject_Z b - inject_Z a) / 25)) by field.
    rewrite E in Hl, Hu. now split.
Qed.

Lemma frame_at_between (cw ch cx cy tw th tx ty k : Z) :
  (0 <= k <= 25)%Z ->
  let '(w, h, x, y) :=
    frame_at (inject_Z tw) (inject_Z th) (inject_Z cw) (inject_Z ch)
             (inject_Z cx) (inject_Z cy) (inject_Z tx) (inject_Z ty) k in
  (between cw tw w /\ between ch th h) /\ (between cx tx x /\ between cy ty y).
Proof.
  intros Hk. unfold frame_at.
  repeat split; apply round_between.
  - apply (interpolant_between cw tw k Hk).
  - apply (interpolant_between cw tw k Hk).
  - apply (interpolant_between ch th k Hk).
  - apply (interpolant_between ch th k Hk).
  - pose proof (interpolant_between cx tx k Hk) as H. unfold steps in *.
    split; [destruct H as [H _] | destruct H as [_ H]];
      (eapply Qle_trans; [|eapply Qle_trans; [exact H|]]);
      try apply Qle_refl; apply Qle_lteq; right; field.
  - pose proof (interpolant_between cx tx k Hk) as H. unfold steps in *.
    split; [destruct H as [H _] | destruct H as [_ H]];
      (eapply Qle_trans; [|eapply Qle_trans; [exact H|]]);
      try apply Qle_refl; apply Qle_lteq; right; field.
  - pose proof (interpolant_between cy ty k Hk) as H. unfold steps in *.
    split; [destruct H as [H _] | destruct H as [_ H]];
      (eapply Qle_trans; [|eapply Qle_trans; [exact H|]]);
      try apply Qle_refl; apply Qle_lteq; right; field.
  - pose proof (interpolant_between cy ty k Hk) as H. unfold steps in *.
    split; [destruct H as [H _] | destruct H as [_ H]];
      (eapply Qle_trans; [|eapply Qle_trans; [exact H|]]);
      try apply Qle_refl; apply Qle_lteq; right; field.
Qed.

(** Step 25 of an integral animation is the target itself. *)
Lemma frame_at_last (cw ch cx cy tw th tx ty : Z) :
  frame_at (inject_Z tw) (inject_Z th) (inject_Z cw) (inject_Z ch)
           (inject_Z cx) (inject_Z cy) (inject_Z tx) (inject_Z ty) 25
  = (tw, th, tx, ty).
Proof.
  unfold frame_at.
  rewrite (NumFacts.round_integer _ tw), (NumFacts.round_integer _ th),
          (NumFacts.round_integer _ tx), (NumFacts.round_integer _ ty);
    [reflexivity | unfold steps; simpl inject_Z; field ..].
Qed.

End FrameFacts.

Import FrameFacts.

(** X5.  Animating between two integral rectangles never overshoots:
    every width, height, [x] and [y] requested, in the frames and in the
    final request, lies between its current and its target value.  And
    the last frame is already the target, so the animation ends with the
    target rectangle requested twice. *)
Theorem move_window_stays_between :
  forall (cw ch cx cy tw th tx ty window_id : Z),
    let requests :=
      move_window (inject_Z tw) (inject_Z th) window_id
        (inject_Z cw) (inject_Z ch) (inject_Z cx) (inject_Z cy)
        (inject_Z tx) (inject_Z ty) in
    Forall (request_between cw ch cx cy tw th tx ty) requests /\
    exists frames : list (Z * Z * Z * Z),
      length frames = 24%nat /\
      requests
      = (flat_map (frame_requests window_id) frames
         ++ [ windowsize window_id tw th; windowmove window_id tx ty;
              windowsize window_id tw th; windowmove window_id tx ty ])%list.
Proof.
  intros cw ch cx cy tw th tx ty window_id requests. subst requests.
  rewrite move_window_closed_form, !int_inject_Z. split.
  - apply Forall_app. split.
    + apply Forall_flat_map. unfold frames_from. apply Forall_map.
      apply Forall_forall. intros k Hk.
      apply list_elem_of_In, in_seq in Hk.
      pose proof (frame_at_between cw ch cx cy tw th tx ty (Z.of_nat k)) as H.
      destruct (frame_at _ _ _ _ _ _ _ _ (Z.of_nat k)) as [[[w h] x] y].
      destruct H as [Hsize Hpos]; [lia|].
      cbn [frame_requests].
      constructor; [exact Hsize | constructor; [exact Hpos | constructor]].
    + assert (Hin : forall a b, between a b b)
        by (intros a b; unfold between; lia).
      constructor; [split; apply Hin |].
      constructor; [split; apply Hin | constructor].
  - exists (frames_from 1 24 (inject_Z tw) (inject_Z th) (inject_Z cw)
              (inject_Z ch) (inject_Z cx) (inject_Z cy)
              (inject_Z tx) (inject_Z ty)).
    split; [apply frames_from_length|].
    unfold frames_from at 1.
    change (seq 1 25) with (seq 1 24 ++ [25%nat])%list.
    rewrite map_app, flat_map_app. cbn [map flat_map].
    change (Z.of_nat 25) with 25. rewrite frame_at_last.
    cbn [frame_requests app]. rewrite <- app_assoc. reflexivity.
Qed.

(* ===================================================================== *)
(** ** Further properties: directional targets in whole pixels *)
(* ===================================================================== *)

Module PixelFacts.

Lemma int_zero : PyNum.int 0%Q = 0.
Proof. reflexivity. Qed.

Lemma int_half (n : Z) : PyNum.int (inject_Z n / 2)%Q = n ÷ 2.
Proof. unfold PyNum.int. cbn. f_equal. lia. Qed.

Lemma int_base_plus_half (b n : Z) :
  PyNum.int (inject_Z b + inject_Z n / 2)%Q = (2 * b + n) ÷ 2.
Proof. unfold PyNum.int. cbn. f_equal. lia. Qed.

Lemma int_half_plus_base (n b : Z) :
  PyNum.int (inject_Z n / 2 + inject_Z b)%Q = (n + 2 * b) ÷ 2.
Proof. unfold PyNum.int. cbn. f_equal. lia. Qed.

End PixelFacts.

Import PixelFacts.

(** X6.  In whole pixels: every directional action ends with one resize
    and one move to the table's rectangle with each half truncated
    toward zero.  So on a screen of odd height the north and south
    halves are [(screen_h - 1) / 2] rows each and leave the last row
    uncovered, and likewise for east and west on an odd width. *)
Theorem direction_final_request_in_pixels :
  forall (e : env) (s : world) (screens : option screen_data * list screen_data)
         (screen_w screen_h xBase : Z),
    get_screens (xrandr_output e) = Ok screens ->
    screen_for_window screens (X (active_window e))
    = (screen_w, screen_h, xBase) ->
    let w := active_window e in
    let final code :=
      direction_final code (WIDTH w) (HEIGHT w) screen_w screen_h xBase in
    (forall code, exists frames : list (Z * Z * Z * Z),
       length frames = 25%nat /\
       direction code e s
       = let '(fw, fh, fx, fy) := final code in
         (Ok tt,
          issue (flat_map (frame_requests (WINDOW w)) frames
                 ++ [ windowsize (WINDOW w) fw fh;
                      windowmove (WINDOW w) fx fy ])
            s)) /\
    final "N" = (screen_w, screen_h ÷ 2, xBase, 0) /\
    final "S" = (screen_w, screen_h ÷ 2, xBase, screen_h ÷ 2) /\
    final "E" = (screen_w ÷ 2, screen_h, (2 * xBase + screen_w) ÷ 2, 0) /\
    final "W" = (screen_w ÷ 2, screen_h, xBase, 0) /\
    final "NE" = (screen_w ÷ 2, screen_h ÷ 2, (2 * xBase + screen_w) ÷ 2, 0) /\
    final "NW" = (screen_w ÷ 2, screen_h ÷ 2, xBase, 0) /\
    final "SE" = (screen_w ÷ 2, screen_h ÷ 2,
                  (2 * xBase + screen_w) ÷ 2, screen_h ÷ 2) /\
    final "SW" = (screen_w ÷ 2, screen_h ÷ 2, xBase, screen_h ÷ 2) /\
    final "C" = (WIDTH w, HEIGHT w,
                 (screen_w - WIDTH w + 2 * xBase) ÷ 2,
                 (screen_h - HEIGHT w) ÷ 2) /\
    (0 <= screen_h -> Z.odd screen_h = true ->
       screen_h ÷ 2 + screen_h ÷ 2 = screen_h - 1) /\
    (0 <= screen_w -> Z.odd screen_w = true ->
       screen_w ÷ 2 + screen_w ÷ 2 = screen_w - 1).
Proof.
  intros e s screens screen_w screen_h xBase Hs Hscreen w final.
  assert (Hodd : forall n, 0 <= n -> Z.odd n = true -> n ÷ 2 + n ÷ 2 = n - 1).
  { intros n Hn Ho. apply Z.odd_spec in Ho. destruct Ho as [m ->].
    rewrite Z.quot_div_nonneg by lia.
    assert (E : (2 * m + 1) / 2 = m)
      by (symmetry; apply (Z.div_unique (2 * m + 1) 2 m 1); lia).
    lia. }
  split.
  - intros code. rewrite (direction_run code _ _ _ Hs). cbv zeta.
    subst final w. rewrite Hscreen. unfold direction_final.
    destruct (direction_target code _ _ screen_w screen_h xBase)
      as [[[tw th] tx] ty].
    rewrite move_window_closed_form.
    eexists. split; [|reflexivity]. apply frames_from_length.
  - subst final. unfold direction_final, direction_target.
    cbn [String.eqb Ascii.eqb Bool.eqb].
    rewrite ?int_inject_Z, ?int_half, ?int_base_plus_half,
            ?int_half_plus_base, ?int_zero.
    repeat split; try reflexivity; apply Hodd.
Qed.

Lemma direction_final_request_in_pixels_witness :
  get_screens
    (xrandr_output {| xrandr_output := xrandr_dual;
                      active_window := window_123 |})
  = Ok (Some display_1920, [display_1280]) /\
  screen_for_window (Some display_1920, [display_1280]) 2000
  = (1280, 1024, 1920) /\
  direction_final "E" 800 600 1280 1024 1920 = (640, 1024, 2560, 0) /\
  exists frames : list (Z * Z * Z * Z),
    length frames = 25%nat /\
    direction "E"
      {| xrandr_output := xrandr_dual; active_window := window_123 |} world0
    = let '(fw, fh, fx, fy) := direction_final "E" 800 600 1280 1024 1920 in
      (Ok tt,
       issue (flat_map (frame_requests 123) frames
              ++ [windowsize 123 fw fh; windowmove 123 fx fy])
         world0).
Proof.
  assert (Hs : get_screens
                 (xrandr_output {| xrandr_output := xrandr_dual;
                                   active_window := window_123 |})
               = Ok (Some display_1920, [display_1280]))
    by (vm_compute; reflexivity).
  assert (Hscreen : screen_for_window (Some display_1920, [display_1280])
                      (X (active_window
                            {| xrandr_output := xrandr_dual;
                               active_window := window_123 |}))
                    = (1280, 1024, 1920))
    by reflexivity.
  split; [exact Hs|]. split; [exact Hscreen|]. split; [reflexivity|].
  exact (proj1 (direction_final_request_in_pixels
                  _ world0 _ _ _ _ Hs Hscreen) "E").
Defined.

(* ===================================================================== *)
(** ** Further properties: the toggles, run twice *)
(* ===================================================================== *)

Module ToggleFacts.

(** A window maximised by fullscreen is still on the screen it was
    maximised on, once the primary display is at least 6 wide. *)
Lemma maximised_same_screen (w : window) primary others :
  6 <= width primary ->
  let screen := screen_for_window (Some primary, others) (X w) in
  screen_for_window (Some primary, others) (X (maximised w screen)) = screen.
Proof.
  intros HP screen. subst screen. unfold screen_for_window.
  destruct (Z.ltb_spec (width primary - 1) (X w)) as [Hx|Hx].
  - destruct others as [|other rest]; cbn [maximised X].
    + now destruct (width primary - 1 <? _).
    + destruct (Z.ltb_spec 0 (width primary)); [|lia].
      destruct (Z.ltb_spec (width primary - 1) (width primary + 5));
        [reflexivity | lia].
  - cbn [maximised X]. change (0 <? 0) with false. cbv iota.
    destruct (Z.ltb_spec (width primary - 1) 5); [lia|].
    now destruct others.
Qed.

(** The run of toggle-display with the target written by cases on the
    window's side of the boundary. *)
Lemma toggle_display_shifts_to e s primary others :
  get_screens (xrandr_output e) = Ok (Some primary, others) ->
  let w := active_window e in
  let P := width primary in
  toggle_display e s
  = (Ok tt,
     issue (move_window (inject_Z (WIDTH w)) (inject_Z (HEIGHT w)) (WINDOW w)
              (inject_Z (WIDTH w)) (inject_Z (HEIGHT w))
              (inject_Z (X w)) (inject_Z (Y w))
              (inject_Z (if X w <=? P - 1 then X w + P else X w - P))
              (inject_Z (Y w)))
       s).
Proof.
  intros Hs w P. rewrite (toggle_display_run _ _ _ _ Hs). cbv zeta. fold w P.
  replace (X w + (if P - 1 <? X w then - P else P))
    with (if X w <=? P - 1 then X w + P else X w - P); [reflexivity|].
  destruct (Z.leb_spec (X w) (P - 1)), (Z.ltb_spec (P - 1) (X w)); lia.
Qed.

End ToggleFacts.

Import ToggleFacts.

(** X7.  Toggle-fullscreen undoes itself.  On a window that is not
    already [screen_w - 10] wide it runs fullscreen; run again once the
    window sits where fullscreen sent it, with the primary display at
    least 6 wide, it runs restore, whose final resize and move give back
    the geometry the window had at first. *)
Theorem toggle_fullscreen_twice_restores :
  forall (xrandr : string) (w1 : window) (s : world)
         (primary : screen_data) (others : list screen_data),
    get_screens xrandr = Ok (Some primary, others) ->
    6 <= width primary ->
    let screen := screen_for_window (Some primary, others) (X w1) in
    WIDTH w1 <> fst (fst screen) - 10 ->
    let e1 := {| xrandr_output := xrandr; active_window := w1 |} in
    let e2 := {| xrandr_output := xrandr;
                 active_window := maximised w1 screen |} in
    let s1 := snd (main "TF" e1 s) in
    main "TF" e1 s = fullscreen e1 s /\
    exists frames : list (Z * Z * Z * Z),
      length frames = 25%nat /\
      main "TF" e2 s1
      = (Ok tt,
         issue (flat_map (frame_requests (WINDOW w1)) frames
                ++ [ windowsize (WINDOW w1) (WIDTH w1) (HEIGHT w1);
                     windowmove (WINDOW w1) (X w1) (Y w1) ])
           s1).
Proof.
  intros xrandr w1 s primary others Hs HP screen Hw e1 e2 s1.
  change (main "TF") with toggle_fullscreen in *.
  assert (H1 : toggle_fullscreen e1 s = fullscreen e1 s).
  { rewrite (toggle_fullscreen_run e1 s _ Hs). cbv zeta.
    change (active_window e1) with w1. fold screen.
    destruct screen as [[sw sh] xb]. cbn [fst] in Hw.
    destruct (Z.eqb_spec (WIDTH w1) (sw - 10)); [contradiction | reflexivity]. }
  split; [exact H1|].
  assert (Hrec : cache s1 !! WINDOW (active_window e2)
                 = Some (kv_text (window_dict w1))).
  { subst s1. rewrite H1, (fullscreen_run e1 s _ Hs). cbv zeta.
    change (active_window e1) with w1. fold screen.
    subst e2. destruct screen as [[sw sh] xb].
    cbn [active_window maximised WINDOW snd issue saved cache].
    apply lookup_insert_eq. }
  assert (Hsame := maximised_same_screen w1 primary others HP).
  cbv zeta in Hsame. fold screen in Hsame.
  rewrite (toggle_fullscreen_run e2 s1 _ Hs). cbv zeta.
  change (active_window e2) with (maximised w1 screen). rewrite Hsame.
  assert (Hwidth : WIDTH (maximised w1 screen) = fst (fst screen) - 10)
    by (destruct screen as [[sw sh] xb]; reflexivity).
  assert (Hid : WINDOW (maximised w1 screen) = WINDOW w1)
    by (destruct screen as [[sw sh] xb]; reflexivity).
  destruct screen as [[sw sh] xb] eqn:Escreen. cbn [fst] in Hwidth.
  rewrite Hwidth, Z.eqb_refl.
  rewrite (unscreen_hit e2 s1 _ w1 Hs Hrec). cbv zeta.
  change (active_window e2) with (maximised w1 (sw, sh, xb)).
  rewrite Hsame, Hid.
  rewrite move_window_closed_form, !int_inject_Z.
  eexists. split; [|reflexivity]. apply frames_from_length.
Qed.

Lemma toggle_fullscreen_twice_restores_witness :
  get_screens xrandr_dual = Ok (Some display_1920, [display_1280]) /\
  6 <= width display_1920 /\
  WIDTH window_123
  <> fst (fst (screen_for_window (Some display_1920, [display_1280])
                 (X window_123))) - 10 /\
  maximised window_123
    (screen_for_window (Some display_1920, [display_1280]) (X window_123))
  = window_123_maximised /\
  exists frames : list (Z * Z * Z * Z),
    length frames = 25%nat /\
    main "TF"
      {| xrandr_output := xrandr_dual;
         active_window :=
           maximised window_123
             (screen_for_window (Some display_1920, [display_1280])
                (X window_123)) |}
      (snd (main "TF" {| xrandr_output := xrandr_dual;
                         active_window := window_123 |} world0))
    = (Ok tt,
       issue (flat_map (frame_requests (WINDOW window_123)) frames
              ++ [ windowsize (WINDOW window_123)
                     (WIDTH window_123) (HEIGHT window_123);
                   windowmove (WINDOW window_123)
                     (X window_123) (Y window_123) ])
         (snd (main "TF" {| xrandr_output := xrandr_dual;
                            active_window := window_123 |} world0))).
Proof.
  assert (Hs : get_screens xrandr_dual
               = Ok (Some display_1920, [display_1280]))
    by (vm_compute; reflexivity).
  assert (HP : 6 <= width display_1920) by now vm_compute.
  assert (Hw : WIDTH window_123
               <> fst (fst (screen_for_window
                              (Some display_1920, [display_1280])
                              (X window_123))) - 10)
    by now vm_compute.
  split; [exact Hs|]. split; [exact HP|]. split; [exact Hw|].
  split; [reflexivity|].
  exact (proj2 (toggle_fullscreen_twice_restores
                  xrandr_dual window_123 world0 _ _ Hs HP Hw)).
Defined.

(** X8.  Toggle-fullscreen takes a window that is exactly
    [screen_w - 10] wide for a maximised one: when the cache holds no
    record for it, nothing is issued and nothing is written, so such a
    window cannot be maximised through the toggle. *)
Theorem toggle_fullscreen_on_unsaved_wide_window :
  forall (e : env) (s : world)
         (screens : option screen_data * list screen_data),
    get_screens (xrandr_output e) = Ok screens ->
    WIDTH (active_window e)
    = fst (fst (screen_for_window screens (X (active_window e)))) - 10 ->
    cache s !! WINDOW (active_window e) = None ->
    main "TF" e s = (Ok tt, s).
Proof.
  intros e s screens Hs Hw Hc.
  change (main "TF") with toggle_fullscreen.
  rewrite (toggle_fullscreen_run e s _ Hs). cbv zeta.
  destruct (screen_for_window screens (X (active_window e)))
    as [[sw sh] xb].
  cbn [fst] in Hw. rewrite Hw, Z.eqb_refl.
  exact (unscreen_miss _ _ _ Hs Hc).
Qed.

Lemma toggle_fullscreen_on_unsaved_wide_window_witness :
  get_screens
    (xrandr_output {| xrandr_output := xrandr_dual;
                      active_window := window_123_maximised |})
  = Ok (Some display_1920, [display_1280]) /\
  main "TF"
    {| xrandr_output := xrandr_dual; active_window := window_123_maximised |}
    world0
  = (Ok tt, world0).
Proof.
  assert (Hs : get_screens
                 (xrandr_output {| xrandr_output := xrandr_dual;
                                   active_window := window_123_maximised |})
               = Ok (Some display_1920, [display_1280]))
    by (vm_compute; reflexivity).
  split; [exact Hs|].
  apply (toggle_fullscreen_on_unsaved_wide_window _ world0 _ Hs);
    [reflexivity | apply lookup_empty].
Defined.

(** X9.  Toggle-display twice, the window having followed the first
    move, with a primary display of positive width [P]: a window that
    started at [0 <= x < 2 * P] is sent back to [x]; one that started
    left of 0 ends [2 * P] further right, and one that started at
    [2 * P] or beyond ends [2 * P] further left. *)
Theorem toggle_display_twice :
  forall (xrandr : string) (w : window) (s : world)
         (primary : screen_data) (others : list screen_data),
    get_screens xrandr = Ok (Some primary, others) ->
    0 < width primary ->
    let P := width primary in
    let x1 := if X w <=? P - 1 then X w + P else X w - P in
    let x2 := if X w <? 0 then X w + 2 * P
              else if X w <? 2 * P then X w
              else X w - 2 * P in
    let e1 := {| xrandr_output := xrandr; active_window := w |} in
    let e2 := {| xrandr_output := xrandr; active_window := moved_to w x1 |} in
    let s1 := snd (main "TD" e1 s) in
    exists frames1 frames2 : list (Z * Z * Z * Z),
      length frames1 = 25%nat /\ length frames2 = 25%nat /\
      main "TD" e1 s
      = (Ok tt,
         issue (flat_map (frame_requests (WINDOW w)) frames1
                ++ [ windowsize (WINDOW w) (WIDTH w) (HEIGHT w);
                     windowmove (WINDOW w) x1 (Y w) ])
           s) /\
      main "TD" e2 s1
      = (Ok tt,
         issue (flat_map (frame_requests (WINDOW w)) frames2
                ++ [ windowsize (WINDOW w) (WIDTH w) (HEIGHT w);
                     windowmove (WINDOW w) x2 (Y w) ])
           s1).
Proof.
  intros xrandr w s primary others Hs HP P x1 x2 e1 e2 s1.
  change (main "TD") with toggle_display in *.
  pose proof (toggle_display_shifts_to e1 s _ _ Hs) as H1.
  pose proof (toggle_display_shifts_to e2 s1 _ _ Hs) as H2.
  cbv zeta in H1, H2.
  change (active_window e1) with w in H1.
  change (active_window e2) with (moved_to w x1) in H2.
  cbn [moved_to WINDOW X Y WIDTH HEIGHT] in H2. fold P in H1, H2.
  fold x1 in H1.
  replace (if x1 <=? P - 1 then x1 + P else x1 - P) with x2 in H2.
  - rewrite H1, H2, !move_window_closed_form, !int_inject_Z.
    eexists. eexists.
    split; [apply frames_from_length|].
    split; [apply frames_from_length|]. split; reflexivity.
  - subst x1 x2.
    destruct (Z.leb_spec (X w) (P - 1)), (Z.ltb_spec (X w) 0),
             (Z.ltb_spec (X w) (2 * P));
      try lia;
      match goal with
      | |- _ = (if ?a <=? ?b then _ else _) => destruct (Z.leb_spec a b)
      end; lia.
Qed.

Lemma toggle_display_twice_witness :
  get_screens xrandr_dual = Ok (Some display_1920, [display_1280]) /\
  0 < width display_1920 /\
  exists frames1 frames2 : list (Z * Z * Z * Z),
    length frames1 = 25%nat /\ length frames2 = 25%nat /\
    main "TD" {| xrandr_output := xrandr_dual; active_window := window_77 |}
      world0
    = (Ok tt,
       issue (flat_map (frame_requests 77) frames1
              ++ [windowsize 77 800 600; windowmove 77 2020 40])
         world0) /\
    main "TD"
      {| xrandr_output := xrandr_dual;
         active_window := moved_to window_77 2020 |}
      (snd (main "TD" {| xrandr_output := xrandr_dual;
                         active_window := window_77 |} world0))
    = (Ok tt,
       issue (flat_map (frame_requests 77) frames2
              ++ [windowsize 77 800 600; windowmove 77 100 40])
         (snd (main "TD" {| xrandr_output := xrandr_dual;
                            active_window := window_77 |} world0))).
Proof.
  assert (Hs : get_screens xrandr_dual
               = Ok (Some display_1920, [display_1280]))
    by (vm_compute; reflexivity).
  assert (HP : 0 < width display_1920) by now vm_compute.
  split; [exact Hs|]. split; [exact HP|].
  exact (toggle_display_twice xrandr_dual window_77 world0 _ _ Hs HP).
Defined.

(* ===================================================================== *)
(** ** Further properties: reading a listing and a damaged record *)
(* ===================================================================== *)

Module ListingFacts.
Import PyStr TextFacts.

#[local] Arguments String.append !_ _ / : simpl nomatch.

Lemma nochar_string_of_uint_x d :
  nochar "x" (NilEmpty.string_of_uint d) = true.
Proof. induction d; simpl; auto. Qed.

Lemma nochar_str_x v : nochar "x" (str v) = true.
Proof. destruct v; simpl; auto using nochar_string_of_uint_x. Qed.

Lemma split_on_nochar sep s : forall tok,
  nochar sep s = true -> split_on sep tok s = [(tok ++ s)%string].
Proof.
  induction s as [|c s IH]; intros tok H; simpl in *.
  - now rewrite append_empty_r.
  - apply andb_prop in H as [Hc Hs]. apply negb_true_iff in Hc.
    rewrite Hc, IH by assumption. now rewrite append_snoc.
Qed.

Lemma split_on_first sep a : forall tok b,
  nochar sep a = true ->
  split_on sep tok (a ++ String sep b)
  = (tok ++ a)%string :: split_on sep "" b.
Proof.
  induction a as [|c a IH]; intros tok b H; simpl in *.
  - rewrite Ascii.eqb_refl. now rewrite append_empty_r.
  - apply andb_prop in H as [Hc Ha]. apply negb_true_iff in Hc.
    rewrite Hc, IH by assumption. now rewrite append_snoc.
Qed.

Lemma contains_x a b : contains "x" (a ++ String "x" b) = true.
Proof.
  induction a as [|c a IH]; simpl.
  - destruct b; reflexivity.
  - rewrite IH. apply orb_true_r.
Qed.

(** A token [WxH] printed from two integers is read back as them. *)
Lemma unpack_resolution_str w h :
  unpack_resolution (split_sep "x" (str w ++ String "x" (str h))) = Ok (w, h).
Proof.
  unfold split_sep. rewrite split_on_first by apply nochar_str_x.
  rewrite split_on_nochar by apply nochar_str_x.
  simpl. now rewrite !int_str.
Qed.

Lemma unpack_resolution_raises parts e :
  unpack_resolution parts = Raise e -> e = ValueError.
Proof.
  unfold unpack_resolution.
  destruct parts as [|a [|b [|c parts]]]; try (now intros [= <-]).
  destruct (int a), (int b); now intros [= <-].
Qed.

(** One block: the display is recorded and its mode line passed over. *)
Lemma get_screens_loop_block header mode w h rest primary others :
  contains " connected" header = true ->
  contains " connected" mode = false ->
  shows_resolution mode w h = true ->
  get_screens_loop (header :: mode :: rest) primary others
  = if contains " primary" header
    then get_screens_loop rest (Some {| width := w; height := h |}) others
    else get_screens_loop rest primary
           (others ++ [{| width := w; height := h |}])%list.
Proof.
  intros Hh Hm Hres. cbn [get_screens_loop]. rewrite Hh, Hm.
  unfold shows_resolution in Hres.
  destruct (split (strip mode)) as [|res_str toks]; [discriminate|].
  apply String.eqb_eq in Hres. subst res_str.
  change (str w ++ "x" ++ str h)%string
    with (str w ++ String "x" (str h))%string.
  rewrite contains_x, unpack_resolution_str.
  now destruct (contains " primary" header).
Qed.

Lemma get_screens_loop_listing items : forall primary others,
  well_formed items = true ->
  get_screens_loop (listing_lines items) primary others
  = Ok (listed_primary items primary, (others ++ listed_others items)%list).
Proof.
  induction items as [|item items IH]; intros primary others H.
  - simpl. now rewrite app_nil_r.
  - destruct item as [header mode w h | header | line];
      cbn [well_formed] in H; cbn [listing_lines flat_map item_lines app].
    + apply andb_prop in H as [H Hrest]. apply andb_prop in H as [H Hres].
      apply andb_prop in H as [Hh Hm]. apply negb_true_iff in Hm.
      rewrite (get_screens_loop_block _ _ w h) by assumption.
      fold (listing_lines items). cbn [listed_primary listed_others].
      destruct (contains " primary" header); rewrite IH by assumption;
        [reflexivity|]. now rewrite <- app_assoc.
    + apply andb_prop in H as [H Hrest]. apply andb_prop in H as [Hh Hnext].
      fold (listing_lines items).
      rewrite EnumFacts.get_screens_loop_skip; [now apply IH | exact Hh |].
      destruct (listing_lines items) as [|next more]; [exact I|].
      unfold no_resolution in Hnext.
      destruct (split (strip next)) as [|res_str toks]; [exact I|].
      now apply negb_true_iff in Hnext.
    + apply andb_prop in H as [Hl Hrest]. apply negb_true_iff in Hl.
      fold (listing_lines items).
      rewrite EnumFacts.get_screens_loop_other by assumption. now apply IH.
Qed.

Lemma noline_cr c : islinebreak c = false -> Ascii.eqb c "013" = false.
Proof.
  intros H. destruct (Ascii.eqb_spec c "013") as [->|]; [discriminate H | reflexivity].
Qed.

Lemma splitlines_from_noline s : forall cur rest,
  noline s = true ->
  splitlines_from cur (s ++ String "010" rest)
  = (cur ++ s)%string :: splitlines_from "" rest.
Proof.
  induction s as [|c s IH]; intros cur rest H; simpl in *.
  - now rewrite append_empty_r.
  - apply andb_prop in H as [Hc Hs]. apply negb_true_iff in Hc.
    rewrite (noline_cr _ Hc), Hc, IH by assumption. now rewrite append_snoc.
Qed.

(** [splitlines] undoes [unlines] on lines free of line boundaries. *)
Lemma splitlines_unlines ls :
  forallb noline ls = true -> splitlines (unlines ls) = ls.
Proof.
  unfold splitlines. induction ls as [|l ls IH]; intros H; simpl in *.
  - reflexivity.
  - apply andb_prop in H as [Hl Hls]. unfold newline.
    change (l ++ String "010" "" ++ unlines ls)%string
      with (l ++ String "010" (unlines ls))%string.
    rewrite splitlines_from_noline by assumption. simpl. now rewrite IH.
Qed.

(** Past any lines, a connected display followed by a malformed
    resolution ends the enumeration: every exit of the loop before it is
    a [ValueError] as well. *)
Lemma get_screens_loop_malformed pre : forall header bad rest primary others,
  contains " connected" header = true ->
  malformed_resolution bad = true ->
  get_screens_loop (pre ++ header :: bad :: rest) primary others
  = Raise ValueError.
Proof.
  induction pre as [|l pre IH]; intros header bad rest primary others Hh Hbad.
  - cbn [app get_screens_loop]. rewrite Hh.
    unfold malformed_resolution in Hbad.
    destruct (split (strip bad)) as [|res_str toks]; [discriminate|].
    apply andb_prop in Hbad as [Hx Hu]. rewrite Hx.
    destruct (unpack_resolution (split_sep "x" res_str)) as [wh|e] eqn:E;
      [discriminate|].
    now rewrite (unpack_resolution_raises _ _ E).
  - specialize (IH header bad rest).
    cbn [app]. remember (pre ++ header :: bad :: rest)%list as L eqn:HL.
    clear HL. cbn [get_screens_loop].
    destruct (contains " connected" l); [|now apply IH].
    destruct L as [|next L']; [now apply IH|].
    destruct (split (strip next)) as [|res_str toks]; [now apply IH|].
    destruct (contains "x" res_str); [|now apply IH].
    destruct (unpack_resolution (split_sep "x" res_str)) as [[w h]|e] eqn:E.
    + destruct (contains " primary" l); now apply IH.
    + now rewrite (unpack_resolution_raises _ _ E).
Qed.

Lemma noeq_snoc cur c :
  noeq cur = true -> Ascii.eqb c "=" = false -> noeq (snoc cur c) = true.
Proof.
  intros Hcur Hc. unfold snoc. induction cur as [|a cur IH]; simpl in *.
  - now rewrite Hc.
  - apply andb_prop in Hcur as [Ha Hcur]. now rewrite Ha, IH.
Qed.

Lemma noeq_contains s : noeq s = true -> contains "=" s = false.
Proof.
  induction s as [|c s IH]; [reflexivity|].
  intros H. simpl in H. apply andb_prop in H as [Hc Hs].
  apply negb_true_iff in Hc. cbn [contains]. rewrite IH by assumption.
  rewrite orb_false_r.
  change (String.prefix "=" (String c s))
    with (if ascii_dec "=" c then String.prefix "" s else false).
  destruct (ascii_dec "=" c) as [<-|]; [discriminate Hc | reflexivity].
Qed.

(** After a CR the next line starts right behind it or, when a LF
    follows, one character later. *)
Lemma filelines_from_cr cur c text :
  exists t,
    filelines_from cur (String "013" (String c text))
    = cur :: filelines_from "" t
    /\ (t = text \/ t = String c text).
Proof.
  destruct c as [[|] [|] [|] [|] [|] [|] [|] [|]];
    eexists; (split; [reflexivity|]); auto.
Qed.

(** A file without any ["="] holds no item. *)
Lemma load_pid_loop_noeq n : forall text cur data,
  (String.length text <= n)%nat ->
  noeq cur = true -> noeq text = true ->
  load_pid_loop (filelines_from cur text) data = Ok data.
Proof.
  induction n as [|n IH]; intros text cur data Hn Hcur H.
  - destruct text; [|simpl in Hn; lia].
    simpl. destruct cur; [reflexivity|].
    cbn [load_pid_loop]. now rewrite (noeq_contains _ Hcur).
  - destruct text as [|c text].
    + simpl. destruct cur; [reflexivity|].
      cbn [load_pid_loop]. now rewrite (noeq_contains _ Hcur).
    + assert (Hc : Ascii.eqb c "=" = false /\ noeq text = true).
      { simpl in H. apply andb_prop in H as [Hc Ht].
        now apply negb_true_iff in Hc. }
      destruct Hc as [Hc Htext]. simpl in Hn.
      destruct (Ascii.eqb c "013") eqn:Ecr.
      * apply Ascii.eqb_eq in Ecr. subst c.
        destruct text as [|c' text'].
        -- simpl. cbn [load_pid_loop]. now rewrite (noeq_contains _ Hcur).
        -- destruct (filelines_from_cr cur c' text') as (t & -> & Ht).
           cbn [load_pid_loop]. rewrite (noeq_contains _ Hcur).
           simpl in Hn.
           destruct Ht as [-> | ->]; apply IH; simpl; try lia; try reflexivity.
           ++ simpl in Htext. now apply andb_prop in Htext as [_ Htext].
           ++ exact Htext.
      * cbn [filelines_from]. rewrite Ecr.
        destruct (Ascii.eqb c "010").
        -- cbn [load_pid_loop]. rewrite (noeq_contains _ Hcur).
           apply IH; [lia | reflexivity | exact Htext].
        -- apply IH; [lia | now apply noeq_snoc | exact Htext].
Qed.

End ListingFacts.

Import ListingFacts.

(** X10.  [get_screens] reads a well-formed listing back: the primary
    display is the last block whose header is marked primary, the others
    are the blocks not so marked, in the order listed and with the size
    their mode line opens with; a connected display without a usable
    mode line after it and every other line contribute nothing. *)
Theorem get_screens_reads_listing :
  forall items : list listing_item,
    well_formed items = true ->
    forallb noline (listing_lines items) = true ->
    get_screens (unlines (listing_lines items))
    = Ok (listed_primary items None, listed_others items).
Proof.
  intros items Hwf Hlines. unfold get_screens.
  rewrite splitlines_unlines by assumption.
  now rewrite get_screens_loop_listing.
Qed.

Lemma get_screens_reads_listing_witness :
  well_formed listing_example = true /\
  forallb noline (listing_lines listing_example) = true /\
  get_screens (unlines (listing_lines listing_example))
  = Ok (Some display_1920, [display_1280]).
Proof.
  assert (Hwf : well_formed listing_example = true)
    by (vm_compute; reflexivity).
  assert (Hlines : forallb noline (listing_lines listing_example) = true)
    by (vm_compute; reflexivity).
  split; [exact Hwf|]. split; [exact Hlines|].
  exact (get_screens_reads_listing listing_example Hwf Hlines).
Defined.

(** X11.  One malformed resolution spoils the whole enumeration: if any
    line with the connected marker is followed by a line whose first
    token holds an ["x"] without being two integer literals,
    [get_screens] raises [ValueError], whatever the lines before and
    after, and returns none of the displays it had read. *)
Theorem get_screens_malformed_resolution_raises :
  forall (output : string) (pre : list string) (header bad : string)
         (rest : list string),
    PyStr.splitlines output = (pre ++ header :: bad :: rest)%list ->
    PyStr.contains " connected" header = true ->
    malformed_resolution bad = true ->
    get_screens output = Raise ValueError.
Proof.
  intros output pre header bad rest Hlines Hh Hbad.
  unfold get_screens. rewrite Hlines.
  now apply get_screens_loop_malformed.
Qed.

Lemma get_screens_malformed_resolution_raises_witness :
  PyStr.splitlines xrandr_interlaced
  = ([ "Screen 0: minimum 320 x 200, current 1920 x 1080, maximum 16384 x 16384" ]
     ++ "HDMI-1 connected primary 1920x1080+0+0 (normal left inverted right x axis y axis) 1600mm x 900mm"
     :: "   1920x1080i    60.00*+  50.00    59.94"
     :: [ "   1280x720      60.00    50.00    59.94" ])%list /\
  get_screens xrandr_interlaced = Raise ValueError.
Proof.
  assert (Hlines :
    PyStr.splitlines xrandr_interlaced
    = ([ "Screen 0: minimum 320 x 200, current 1920 x 1080, maximum 16384 x 16384" ]
       ++ "HDMI-1 connected primary 1920x1080+0+0 (normal left inverted right x axis y axis) 1600mm x 900mm"
       :: "   1920x1080i    60.00*+  50.00    59.94"
       :: [ "   1280x720      60.00    50.00    59.94" ])%list)
    by (vm_compute; reflexivity).
  split; [exact Hlines|].
  apply (get_screens_malformed_resolution_raises _ _ _ _ _ Hlines);
    vm_compute; reflexivity.
Defined.

(** X12.  A record file without any ["="] in it, the empty file
    included, reads as an empty dict, which restore takes for no record:
    it issues nothing and leaves the world as it was. *)
Theorem unscreen_with_empty_record :
  forall (e : env) (s : world)
         (screens : option screen_data * list screen_data) (text : string),
    get_screens (xrandr_output e) = Ok screens ->
    cache s !! WINDOW (active_window e) = Some text ->
    noeq text = true ->
    load_pid (WINDOW (active_window e)) e s = (Ok (Some []), s) /\
    unscreen e s = (Ok tt, s).
Proof.
  intros e s screens text Hs Hc Htext.
  assert (Hload : load_pid (WINDOW (active_window e)) e s = (Ok (Some []), s)).
  { unfold load_pid, PyStr.filelines. rewrite Hc.
    now rewrite (load_pid_loop_noeq (String.length text) text "" []). }
  split; [exact Hload|].
  unfold unscreen. run.
  destruct (screen_for_window screens (X (active_window e))) as [[sw sh] xb].
  run. now rewrite (bind_ok _ _ _ _ _ _ Hload).
Qed.

Lemma unscreen_with_empty_record_witness :
  get_screens
    (xrandr_output {| xrandr_output := xrandr_dual;
                      active_window := window_123 |})
  = Ok (Some display_1920, [display_1280]) /\
  cache {| cache := <[123 := "no record here"]> ∅; log := [] |}
    !! WINDOW window_123
  = Some "no record here" /\
  unscreen {| xrandr_output := xrandr_dual; active_window := window_123 |}
    {| cache := <[123 := "no record here"]> ∅; log := [] |}
  = (Ok tt, {| cache := <[123 := "no record here"]> ∅; log := [] |}).
Proof.
  assert (Hs : get_screens
                 (xrandr_output {| xrandr_output := xrandr_dual;
                                   active_window := window_123 |})
               = Ok (Some display_1920, [display_1280]))
    by (vm_compute; reflexivity).
  assert (Hc : cache {| cache := <[123 := "no record here"]> ∅; log := [] |}
                 !! WINDOW window_123
               = Some "no record here")
    by apply lookup_insert_eq.
  split; [exact Hs|]. split; [exact Hc|].
  exact (proj2 (unscreen_with_empty_record _ _ _ _ Hs Hc eq_refl)).
Defined.

(** X13.  Fullscreen run again on the same window replaces the saved
    geometry: a restore after two fullscreens ends at the rectangle the
    window had when the second one ran, not at the one it had before the
    first. *)
Theorem unscreen_after_two_fullscreens :
  forall (e1 e2 e3 : env) (s : world)
         (screens3 : option screen_data * list screen_data),
    get_screens (xrandr_output e3) = Ok screens3 ->
    WINDOW (active_window e2) = WINDOW (active_window e1) ->
    WINDOW (active_window e3) = WINDOW (active_window e1) ->
    let w2 := active_window e2 in
    let s2 := snd (fullscreen e2 (snd (fullscreen e1 s))) in
    exists frames : list (Z * Z * Z * Z),
      length frames = 25%nat /\
      unscreen e3 s2
      = (Ok tt,
         issue (flat_map (frame_requests (WINDOW w2)) frames
                ++ [ windowsize (WINDOW w2) (WIDTH w2) (HEIGHT w2);
                     windowmove (WINDOW w2) (X w2) (Y w2) ])
           s2).
Proof.
  intros e1 e2 e3 s screens3 Hs3 Hid2 Hid3 w2 s2.
  assert (Hrec : cache s2 !! WINDOW (active_window e3)
                 = Some (kv_text (window_dict w2))).
  { rewrite Hid3, <- Hid2. subst s2. fold w2.
    destruct (get_screens (xrandr_output e2)) as [screens2|err] eqn:Hs2.
    - rewrite (fullscreen_run e2 _ _ Hs2). cbv zeta. fold w2.
      destruct (screen_for_window screens2 (X w2)) as [[sw sh] xb].
      apply lookup_insert_eq.
    - rewrite (fullscreen_raise e2 _ _ Hs2). apply lookup_insert_eq. }
  rewrite (unscreen_hit _ _ _ _ Hs3 Hrec). cbv zeta.
  destruct (screen_for_window screens3 (X (active_window e3)))
    as [[sw sh] xb].
  rewrite move_window_closed_form, !int_inject_Z, Hid3, <- Hid2. fold w2.
  eexists. split; [|reflexivity]. apply frames_from_length.
Qed.

Lemma unscreen_after_two_fullscreens_witness :
  exists frames : list (Z * Z * Z * Z),
    length frames = 25%nat /\
    unscreen
      {| xrandr_output := xrandr_dual;
         active_window := window_123_maximised |}
      (snd (fullscreen
              {| xrandr_output := xrandr_dual;
                 active_window := window_123_maximised |}
              (snd (fullscreen
                      {| xrandr_output := xrandr_dual;
                         active_window := window_123 |} world0))))
    = (Ok tt,
       issue (flat_map (frame_requests 123) frames
              ++ [windowsize 123 1270 1014; windowmove 123 1925 5])
         (snd (fullscreen
                 {| xrandr_output := xrandr_dual;
                    active_window := window_123_maximised |}
                 (snd (fullscreen
                         {| xrandr_output := xrandr_dual;
                            active_window := window_123 |} world0))))).
Proof.
  assert (Hs : get_screens
                 (xrandr_output {| xrandr_output := xrandr_dual;
                                   active_window := window_123_maximised |})
               = Ok (Some display_1920, [display_1280]))
    by (vm_compute; reflexivity).
  exact (unscreen_after_two_fullscreens
           {| xrandr_output := xrandr_dual; active_window := window_123 |}
           {| xrandr_output := xrandr_dual;
              active_window := window_123_maximised |}
           {| xrandr_output := xrandr_dual;
              active_window := window_123_maximised |}
           world0 _ Hs eq_refl eq_refl).
Defined.

(** X14.  A restore that finds the record of a window does not animate
    from where the window is: it starts from the window's width and
    height less 10, at [y = 5] and at [x = xBase] on a secondary display
    or [x = 5] on the primary one, and goes to the recorded rectangle. *)
Theorem unscreen_starts_from_synthetic_rectangle :
  forall (e : env) (s : world)
         (screens : option screen_data * list screen_data) (w0 : window),
    get_screens (xrandr_output e) = Ok screens ->
    cache s !! WINDOW (active_window e) = Some (kv_text (window_dict w0)) ->
    let w := active_window e in
    let xBase := snd (screen_for_window screens (X w)) in
    main "U" e s
    = (Ok tt,
       issue (move_window (inject_Z (WIDTH w0)) (inject_Z (HEIGHT w0))
                (WINDOW w)
                (inject_Z (WIDTH w - 10)) (inject_Z (HEIGHT w - 10))
                (inject_Z (if 0 <? xBase then xBase else 5)) (inject_Z 5)
                (inject_Z (X w0)) (inject_Z (Y w0)))
         s).
Proof.
  intros e s screens w0 Hs Hc w xBase. change (main "U") with unscreen.
  rewrite (unscreen_hit _ _ _ _ Hs Hc). cbv zeta. subst xBase. fold w.
  now destruct (screen_for_window screens (X w)) as [[sw sh] xb].
Qed.

Lemma unscreen_starts_from_synthetic_rectangle_witness :
  get_screens
    (xrandr_output {| xrandr_output := xrandr_dual;
                      active_window := window_123_maximised |})
  = Ok (Some display_1920, [display_1280]) /\
  cache {| cache := <[123 := kv_text (window_dict window_123)]> ∅;
           log := [] |}
    !! WINDOW window_123_maximised
  = Some (kv_text (window_dict window_123)) /\
  main "U"
    {| xrandr_output := xrandr_dual; active_window := window_123_maximised |}
    {| cache := <[123 := kv_text (window_dict window_123)]> ∅; log := [] |}
  = (Ok tt,
     issue (move_window (inject_Z 800) (inject_Z 600) 123
              (inject_Z 1260) (inject_Z 1004)
              (inject_Z 1920) (inject_Z 5)
              (inject_Z 2000) (inject_Z 0))
       {| cache := <[123 := kv_text (window_dict window_123)]> ∅;
          log := [] |}).
Proof.
  assert (Hs : get_screens
                 (xrandr_output {| xrandr_output := xrandr_dual;
                                   active_window := window_123_maximised |})
               = Ok (Some display_1920, [display_1280]))
    by (vm_compute; reflexivity).
  assert (Hc : cache {| cache := <[123 := kv_text (window_dict window_123)]> ∅;
                        log := [] |}
                 !! WINDOW window_123_maximised
               = Some (kv_text (window_dict window_123)))
    by apply lookup_insert_eq.
  split; [exact Hs|]. split; [exact Hc|].
  exact (unscreen_starts_from_synthetic_rectangle _ _ _ _ Hs Hc).
Defined.
